(** * wxmplot.interactive: registry, factories and drawing forwarders

    A shallow embedding of [wxmplot/interactive.py].  The module keeps two
    process-wide registries of windows, a lazily created wx application and a
    default theme name; every public function either consults or updates this
    state and then calls into the plotting frames, which are external.

    Modelling conventions.
    - Module globals and the objects they refer to live in one [state]
      record that is threaded through every function.  Window objects are
      kept in a store ([objects]) and referred to by their index, so that two
      references are identity-equal exactly when the indices are equal.
    - A Python exception is an outcome [Raise e]; the state reached when the
      exception is raised is kept, since Python does not roll back.
    - Calls into wx and into the frames (PlotFrame, ImageFrame, their panel,
      axes and canvas) are recorded in [calls], oldest first, with the
      positional and keyword arguments they were given.  They are assumed to
      return normally.
    - Python values are the [pyval]s below; floating-point numbers are not
      part of the model, numbers are Python ints.  Strings are ASCII. *)

From stdpp Require Import gmap strings list fin_maps pretty.
From Stdlib Require Import ZArith QArith Lia Ascii String.

Set Warnings "-register-all,-clear-no-such-hyp".
Close Scope Q_scope.
Open Scope Z_scope.

(** ** Python values *)

(** Index of a window object in the object store. *)
Definition loc := nat.

Inductive pyval :=
| VNone
| VBool (b : bool)
| VInt (n : Z)
| VStr (s : string)
| VTuple (vs : list pyval)
| VList (vs : list pyval)
| VMethod (self : loc) (name : string).  (* a bound method, [self.name] *)

(** Keyword arguments, the dictionary a [def] collects in [kws]. *)
Abbreviation kwargs := (gmap string pyval).

(** Truth value of an object, as tested by [if v:]. *)
Definition truthy (v : pyval) : bool :=
  match v with
  | VNone => false
  | VBool b => b
  | VInt n => negb (n =? 0)
  | VStr s => negb (String.eqb s EmptyString)
  | VTuple vs | VList vs => match vs with [] => false | _ => true end
  | VMethod _ _ => true
  end.

(** [v is None] *)
Definition is_None (v : pyval) : bool :=
  match v with VNone => true | _ => false end.

Inductive exn := TypeError | NameError | ValueError | AttributeError.

Inductive outcome (A : Type) :=
| Ret (a : A)
| Raise (e : exn).
Arguments Ret {A} a.
Arguments Raise {A} e.

(** [int(abs(v))]: defined on ints and bools, a TypeError (from [abs])
    on None, strings, sequences and methods. *)
Definition int_abs (v : pyval) : outcome Z :=
  match v with
  | VInt n => Ret (Z.abs n)
  | VBool b => Ret (Z.b2z b)
  | _ => Raise TypeError
  end.

(** [v - 1], as in [trace -= 1]. *)
Definition minus_one (v : pyval) : outcome pyval :=
  match v with
  | VInt n => Ret (VInt (n - 1))
  | VBool b => Ret (VInt (Z.b2z b - 1))
  | _ => Raise TypeError
  end.

(** [s.lower()] on ASCII strings. *)
Definition lower_ascii (c : ascii) : ascii :=
  let n := nat_of_ascii c in
  if (Nat.leb 65 n && Nat.leb n 90)%bool then ascii_of_nat (n + 32) else c.

Fixpoint lower (s : string) : string :=
  match s with
  | EmptyString => EmptyString
  | String c s' => String (lower_ascii c) (lower s')
  end.

(** ** Calling conventions *)

(** The keyword dictionary of a call that writes the keywords [explicit]
    and then unpacks [kws]: a TypeError when [kws] repeats one of the
    keywords written in the call. *)
Definition call_kw (explicit : list (string * pyval)) (kws : kwargs)
  : outcome kwargs :=
  if forallb (fun kv => bool_decide (kws !! kv.1 = None)) explicit
  then Ret (list_to_map explicit ∪ kws)
  else Raise TypeError.

(** Binding the keywords of a call to the parameters of a [def]: a named
    parameter takes the keyword of its name or its default, the catch-all
    [kws] takes what is left. *)
Definition kwarg (name : string) (default : pyval) (kw : kwargs) : pyval :=
  match kw !! name with Some v => v | None => default end.

Definition without (names : list string) (kw : kwargs) : kwargs :=
  foldr delete kw names.

(** A parameter filled positionally must not be given by keyword as well. *)
Definition positional (names : list string) (kw : kwargs) : outcome unit :=
  if forallb (fun k => bool_decide (kw !! k = None)) names
  then Ret tt
  else Raise TypeError.

(** ** Program state *)

(** The wx application object: the one already running in the environment
    (what [wx.GetApp()] finds), or the [n]-th one made by [wx.App(...)]. *)
Inductive app :=
| EnvApp
| NewApp (n : nat).

(** Calls into the external collaborators:
    - [WxApp kw]: the constructor call of wx.App with keywords [kw];
    - [Init base self kw]: the initialiser of the frame class [base] run on
      [self] with keywords [kw];
    - [Call self target args kw]: the method or sub-object method [target]
      of [self] called with positional [args] and keywords [kw];
    - [SetAttr self target v]: the assignment of [v] to attribute [target]
      of [self];
    - [MainLoop a]: the main loop of [a]. *)
Inductive event :=
| WxApp (kw : kwargs)
| Init (base : string) (self : loc) (kw : kwargs)
| Call (self : loc) (target : string) (args : list pyval) (kw : kwargs)
| SetAttr (self : loc) (target : string) (v : pyval)
| MainLoop (a : app).

Inductive display_class := PlotDisplay | ImageDisplay.

(** Seconds since the epoch, as read from [time.time()]. *)
Definition timestamp := Q.

(** An entry of the cursor history: the coordinates and the time. *)
Definition cursor_entry : Type := list pyval * timestamp.

(** The attributes this module gives a display. *)
Record display := {
  cls : display_class;
  window : Z;
  cursor_hist : list cursor_entry
}.

Record state := {
  wx_GetApp : option app;        (* what wx.GetApp() finds, read only
                                    while wxapp is unset *)
  Themes : list string;          (* keys of config.Themes, in order *)
  wxapp : option app;
  DEFAULT_THEME : string;
  IMG_DISPLAYS : gmap Z loc;
  PLOT_DISPLAYS : gmap Z loc;
  objects : list display;
  calls : list event
}.

Definition MAX_WINDOWS : Z := 100.
Definition MAX_CURSHIST : nat := 100.

(** The module as it is after import. *)
Definition initial_state (env : option app) (themes : list string) : state :=
  {| wx_GetApp := env; Themes := themes; wxapp := None;
     DEFAULT_THEME := "light"; IMG_DISPLAYS := ∅; PLOT_DISPLAYS := ∅;
     objects := []; calls := [] |}.

(** ** The state-and-exception monad *)

Definition M (A : Type) : Type := state -> outcome A * state.

Definition ret {A} (a : A) : M A := fun s => (Ret a, s).

Definition raise {A} (e : exn) : M A := fun s => (Raise e, s).

Definition bind {A B} (m : M A) (k : A -> M B) : M B :=
  fun s =>
    match m s with
    | (Ret a, s') => k a s'
    | (Raise e, s') => (Raise e, s')
    end.

Notation "'do' x <- m ; k" := (bind m (fun x => k))
  (at level 10, x name, m at level 100, k at level 200,
   format "'[v' 'do'  x  <-  m ; '/' k ']'").
Notation "'run' m ; k" := (bind m (fun _ => k))
  (at level 10, m at level 100, k at level 200,
   format "'[v' 'run'  m ; '/' k ']'").

Definition lift {A} (o : outcome A) : M A := fun s => (o, s).

Definition get {A} (f : state -> A) : M A := fun s => (Ret (f s), s).

Definition when (b : bool) (m : M unit) : M unit := if b then m else ret tt.

(** Record an external call. *)
Definition emit (e : event) : M unit :=
  fun s =>
    (Ret tt,
     {| wx_GetApp := wx_GetApp s; Themes := Themes s; wxapp := wxapp s;
        DEFAULT_THEME := DEFAULT_THEME s; IMG_DISPLAYS := IMG_DISPLAYS s;
        PLOT_DISPLAYS := PLOT_DISPLAYS s; objects := objects s;
        calls := calls s ++ [e] |}).

Definition set_wxapp (a : app) : M unit :=
  fun s =>
    (Ret tt,
     {| wx_GetApp := wx_GetApp s; Themes := Themes s; wxapp := Some a;
        DEFAULT_THEME := DEFAULT_THEME s; IMG_DISPLAYS := IMG_DISPLAYS s;
        PLOT_DISPLAYS := PLOT_DISPLAYS s; objects := objects s;
        calls := calls s |}).

Definition set_DEFAULT_THEME (t : string) : M unit :=
  fun s =>
    (Ret tt,
     {| wx_GetApp := wx_GetApp s; Themes := Themes s; wxapp := wxapp s;
        DEFAULT_THEME := t; IMG_DISPLAYS := IMG_DISPLAYS s;
        PLOT_DISPLAYS := PLOT_DISPLAYS s; objects := objects s;
        calls := calls s |}).

Definition set_PLOT_DISPLAYS (f : gmap Z loc -> gmap Z loc) : M unit :=
  fun s =>
    (Ret tt,
     {| wx_GetApp := wx_GetApp s; Themes := Themes s; wxapp := wxapp s;
        DEFAULT_THEME := DEFAULT_THEME s; IMG_DISPLAYS := IMG_DISPLAYS s;
        PLOT_DISPLAYS := f (PLOT_DISPLAYS s); objects := objects s;
        calls := calls s |}).

Definition set_IMG_DISPLAYS (f : gmap Z loc -> gmap Z loc) : M unit :=
  fun s =>
    (Ret tt,
     {| wx_GetApp := wx_GetApp s; Themes := Themes s; wxapp := wxapp s;
        DEFAULT_THEME := DEFAULT_THEME s; IMG_DISPLAYS := f (IMG_DISPLAYS s);
        PLOT_DISPLAYS := PLOT_DISPLAYS s; objects := objects s;
        calls := calls s |}).

Definition set_objects (f : list display -> list display) : M unit :=
  fun s =>
    (Ret tt,
     {| wx_GetApp := wx_GetApp s; Themes := Themes s; wxapp := wxapp s;
        DEFAULT_THEME := DEFAULT_THEME s; IMG_DISPLAYS := IMG_DISPLAYS s;
        PLOT_DISPLAYS := PLOT_DISPLAYS s; objects := f (objects s);
        calls := calls s |}).

(** The attributes of [self]; an object that was never given them has
    none to read. *)
Definition getobj (self : loc) : M display :=
  fun s =>
    match objects s !! self with
    | Some d => (Ret d, s)
    | None => (Raise AttributeError, s)
    end.

(** ** The application accessor *)

Definition is_WxApp (e : event) : bool :=
  match e with WxApp _ => true | _ => false end.

(** How many times [wx.App(...)] has been called. *)
Definition count_WxApp (evs : list event) : nat :=
  List.length (List.filter is_WxApp evs).

(** [get_wxapp(redirect=False, clearSigInt=True)] *)
Definition get_wxapp (redirect clearSigInt : pyval) : M app :=
  do cur <- get wxapp;
  match cur with
  | Some a => ret a
  | None =>
      do found <- get wx_GetApp;
      match found with
      | Some a => run set_wxapp a; ret a
      | None =>
          do n <- get (fun s => count_WxApp (calls s));
          run emit (WxApp (list_to_map [("redirect", redirect);
                                        ("clearSigInt", clearSigInt)]));
          run set_wxapp (NewApp n);
          ret (NewApp n)
      end
  end.

(** [__wxmainloop__()], registered to run at exit. *)
Definition __wxmainloop__ : M unit :=
  do a <- get_wxapp (VBool false) (VBool true);
  emit (MainLoop a).

(** ** Themes *)

(** [set_theme(theme)], for a string [theme]. *)
Definition set_theme (theme : string) : M unit :=
  do themes <- get Themes;
  if bool_decide (lower theme ∈ themes)
  then set_DEFAULT_THEME (lower theme)
  else raise ValueError.

(** [available_themes()]: the keys of the table, as a new list. *)
Definition available_themes : M (list string) :=
  get Themes.

(** ** Window entries *)

(** [PlotDisplay.__init__(self, window=1, size=None, theme=None,
    wintitle=None, **kws)].  The new object is [self]; its attributes
    [window] and [cursor_hist] are stored when the initialiser assigns them. *)
Definition PlotDisplay_init (window : Z) (size theme wintitle : pyval)
    (kws : kwargs) : M loc :=
  do self <- get (fun s => List.length (objects s));
  run get_wxapp (VBool false) (VBool true);
  do default <- get DEFAULT_THEME;
  let theme := if is_None theme then VStr default else theme in
  let wintitle :=
    if is_None wintitle then VStr ("Plot Window " +:+ pretty window)
    else wintitle in
  do kw <- lift (call_kw [("parent", VNone); ("size", size);
                          ("title", wintitle); ("output_title", VStr "plot");
                          ("exit_callback", VMethod self "onExit");
                          ("theme", theme)] kws);
  run emit (Init "PlotFrame" self kw);
  run when (negb (is_None size)) (emit (Call self "SetSize" [size] ∅));
  run emit (Call self "Show" [] ∅);
  run emit (Call self "Raise" [] ∅);
  run emit (SetAttr self "panel.cursor_callback" (VMethod self "onCursor"));
  run emit (SetAttr self "panel.cursor_mode" (VStr "zoom"));
  run set_objects (fun os =>
        os ++ [{| cls := PlotDisplay; window := window; cursor_hist := [] |}]);
  do reg <- get PLOT_DISPLAYS;
  run when (bool_decide (reg !! window = None))
        (set_PLOT_DISPLAYS <[window := self]>);
  ret self.

(** [PlotDisplay.onExit(self, o, **kw)] *)
Definition PlotDisplay_onExit (self : loc) (o : pyval) (kw : kwargs)
  : M unit :=
  do d <- getobj self;
  do reg <- get PLOT_DISPLAYS;
  run when (bool_decide (is_Some (reg !! window d)))
        (set_PLOT_DISPLAYS (delete (window d)));
  emit (Call self "Destroy" [] ∅).

(** [PlotDisplay.onCursor(self, x=None, y=None, **kw)]; [now] is what
    [time.time()] returns during the call. *)
Definition PlotDisplay_onCursor (self : loc) (x y : pyval) (kw : kwargs)
    (now : timestamp) : M unit :=
  do d <- getobj self;
  let hist := ([x; y], now) :: cursor_hist d in
  let hist :=
    if Nat.ltb MAX_CURSHIST (List.length hist) then take MAX_CURSHIST hist
    else hist in
  set_objects <[self := {| cls := cls d; window := window d;
                           cursor_hist := hist |}]>.

(** [ImageDisplay.__init__(self, window=1, size=None, theme=None,
    wintitle=None, **kws)] *)
Definition ImageDisplay_init (window : Z) (size theme wintitle : pyval)
    (kws : kwargs) : M loc :=
  do self <- get (fun s => List.length (objects s));
  run get_wxapp (VBool false) (VBool true);
  let wintitle :=
    if is_None wintitle then VStr ("Image Window " +:+ pretty window)
    else wintitle in
  do kw <- lift (call_kw [("parent", VNone); ("size", size);
                          ("title", wintitle);
                          ("exit_callback", VMethod self "onExit")] kws);
  run emit (Init "ImageFrame" self kw);
  run when (negb (is_None size)) (emit (Call self "SetSize" [size] ∅));
  run emit (Call self "Show" [] ∅);
  run emit (Call self "Raise" [] ∅);
  run emit (SetAttr self "panel.cursor_callback" (VMethod self "onCursor"));
  run set_objects (fun os =>
        os ++ [{| cls := ImageDisplay; window := window; cursor_hist := [] |}]);
  do reg <- get IMG_DISPLAYS;
  run when (bool_decide (reg !! window = None))
        (set_IMG_DISPLAYS <[window := self]>);
  ret self.

(** [ImageDisplay.onExit(self, o, **kw)] *)
Definition ImageDisplay_onExit (self : loc) (o : pyval) (kw : kwargs)
  : M unit :=
  do d <- getobj self;
  do reg <- get IMG_DISPLAYS;
  run when (bool_decide (is_Some (reg !! window d)))
        (set_IMG_DISPLAYS (delete (window d)));
  emit (Call self "Destroy" [] ∅).

(** [ImageDisplay.onCursor(self, x=None, y=None, ix=None, iy=None,
    val=None, **kw)] *)
Definition ImageDisplay_onCursor (self : loc) (x y ix iy val : pyval)
    (kw : kwargs) (now : timestamp) : M unit :=
  do d <- getobj self;
  let hist := ([x; y; ix; iy], now) :: cursor_hist d in
  let hist :=
    if Nat.ltb MAX_CURSHIST (List.length hist) then take MAX_CURSHIST hist
    else hist in
  set_objects <[self := {| cls := cls d; window := window d;
                           cursor_hist := hist |}]>.

(** The callbacks as the frame invokes them: the method of the class of
    [self], its parameters bound from the keywords of the call. *)
Definition onExit (self : loc) (o : pyval) (kw : kwargs) : M unit :=
  do d <- getobj self;
  match cls d with
  | PlotDisplay => PlotDisplay_onExit self o kw
  | ImageDisplay => ImageDisplay_onExit self o kw
  end.

Definition onCursor (self : loc) (kw : kwargs) (now : timestamp) : M unit :=
  do d <- getobj self;
  match cls d with
  | PlotDisplay =>
      PlotDisplay_onCursor self (kwarg "x" VNone kw) (kwarg "y" VNone kw)
        (without ["x"; "y"] kw) now
  | ImageDisplay =>
      ImageDisplay_onCursor self (kwarg "x" VNone kw) (kwarg "y" VNone kw)
        (kwarg "ix" VNone kw) (kwarg "iy" VNone kw) (kwarg "val" VNone kw)
        (without ["x"; "y"; "ix"; "iy"; "val"] kw) now
  end.

(** ** The window factory *)

(** [get_plot_window(win=1, size=None, wintitle=None, theme=None)] *)
Definition get_plot_window (win size wintitle theme : pyval) : M loc :=
  do n <- lift (int_abs win);
  let win := Z.max 1 (Z.min MAX_WINDOWS n) in
  do reg <- get PLOT_DISPLAYS;
  match reg !! win with
  | Some display => ret display
  | None => PlotDisplay_init win size theme wintitle ∅
  end.

(** [get_image_window(win=1, size=None, wintitle=None)].  The branch taken
    when [win] is registered reads the name [IMG_DISPLAY], which the module
    never binds. *)
Definition get_image_window (win size wintitle : pyval) : M loc :=
  do n <- lift (int_abs win);
  let win := Z.max 1 (Z.min MAX_WINDOWS n) in
  do reg <- get IMG_DISPLAYS;
  match reg !! win with
  | Some _ => raise NameError
  | None => ImageDisplay_init win size VNone wintitle ∅
  end.

(** ** Drawing forwarders

    Each function takes its named parameters in the order of its [def] and
    then the catch-all [kws]; the defaults are those of the [def] and are
    filled in by the caller.  The test for [None] that follows the factory
    call ([plotter is None], [img is not None]) is decided, a display being
    an object, and is left out. *)

(** [plot(x, y, win=1, new=False, size=None, wintitle=None, theme=None,
    **kws)] *)
Definition plot (x y win new size wintitle theme : pyval) (kws : kwargs)
  : M loc :=
  do plotter <- get_plot_window win size wintitle theme;
  run emit (Call plotter "Raise" [] ∅);
  run (if truthy new
       then emit (Call plotter "plot" [x; y] kws)
       else emit (Call plotter "oplot" [x; y] kws));
  ret plotter.

(** A call [plot(x, y, **kw)]. *)
Definition plot_kw (x y : pyval) (kw : kwargs) : M loc :=
  run lift (positional ["x"; "y"] kw);
  plot x y (kwarg "win" (VInt 1) kw) (kwarg "new" (VBool false) kw)
    (kwarg "size" VNone kw) (kwarg "wintitle" VNone kw)
    (kwarg "theme" VNone kw)
    (without ["win"; "new"; "size"; "wintitle"; "theme"] kw).

(** [update_trace(x, y, trace=1, win=1, **kws)] *)
Definition update_trace (x y trace win : pyval) (kws : kwargs) : M unit :=
  do plotter <- get_plot_window win VNone VNone VNone;
  run emit (Call plotter "Raise" [] ∅);
  do trace <- lift (minus_one trace);
  do kw <- lift (call_kw [("draw", VBool true)] kws);
  emit (Call plotter "panel.update_line" [trace; x; y] kw).

(** [plot_setlimits(xmin=None, xmax=None, ymin=None, ymax=None, win=1)] *)
Definition plot_setlimits (xmin xmax ymin ymax win : pyval) : M unit :=
  do plotter <- get_plot_window win VNone VNone VNone;
  emit (Call plotter "panel.set_xylims" [VTuple [xmin; xmax; ymin; ymax]] ∅).

(** [newplot(x, y, win=1, wintitle=None, **kws)] *)
Definition newplot (x y win wintitle : pyval) (kws : kwargs) : M loc :=
  let kws := <["new" := VBool true]> kws in
  do kw <- lift (call_kw [("win", win); ("wintitle", wintitle)] kws);
  plot_kw x y kw.

(** [plot_text(text, x, y, win=1, rotation=None, ha='left', va='center',
    side='left', size=None, **kws)] *)
Definition plot_text (text x y win rotation ha va side size : pyval)
    (kws : kwargs) : M unit :=
  do plotter <- get_plot_window win size VNone VNone;
  run emit (Call plotter "Raise" [] ∅);
  do kw <- lift (call_kw [("rotation", rotation); ("ha", ha); ("va", va)] kws);
  emit (Call plotter "add_text" [text; x; y] kw).

(** [plot_arrow(x1, y1, x2, y2, win=1, side='left', shape='full',
    color='black', width=0.00, head_width=0.05, head_length=0.25, size=None,
    **kws)] *)
Definition plot_arrow
    (x1 y1 x2 y2 win side shape color width head_width head_length size : pyval)
    (kws : kwargs) : M unit :=
  do plotter <- get_plot_window win size VNone VNone;
  run emit (Call plotter "Raise" [] ∅);
  do kw <- lift (call_kw [("side", side); ("shape", shape); ("color", color);
                          ("width", width); ("head_length", head_length);
                          ("head_width", head_width)] kws);
  emit (Call plotter "add_arrow" [x1; y1; x2; y2] kw).

(** [plot_marker(x, y, marker='o', size=4, color='black',
    label='_nolegend_', win=1, **kws)] *)
Definition plot_marker (x y marker size color label win : pyval)
    (kws : kwargs) : M unit :=
  do plotter <- get_plot_window win VNone VNone VNone;
  run emit (Call plotter "Raise" [] ∅);
  do kw <- lift (call_kw [("marker", marker); ("markersize", size);
                          ("label", label); ("color", color)] kws);
  emit (Call plotter "oplot" [VList [x]; VList [y]] kw).

(** [plot_axhline(y, xmin=0, xmax=1, win=1, size=None, delay_draw=False,
    **kws)] *)
Definition plot_axhline (y xmin xmax win size delay_draw : pyval)
    (kws : kwargs) : M unit :=
  do plotter <- get_plot_window win size VNone VNone;
  run emit (Call plotter "Raise" [] ∅);
  let kws :=
    if bool_decide (kws !! "label" = None)
    then <["label" := VStr "_nolegend_"]> kws else kws in
  do kw <- lift (call_kw [("xmin", xmin); ("xmax", xmax)] kws);
  run emit (Call plotter "panel.axes.axhline" [y] kw);
  when (truthy delay_draw) (emit (Call plotter "panel.canvas.draw" [] ∅)).

(** [plot_axvline(x, ymin=0, ymax=1, win=1, size=None, delay_draw=False,
    **kws)] *)
Definition plot_axvline (x ymin ymax win size delay_draw : pyval)
    (kws : kwargs) : M unit :=
  do plotter <- get_plot_window win size VNone VNone;
  run emit (Call plotter "Raise" [] ∅);
  let kws :=
    if bool_decide (kws !! "label" = None)
    then <["label" := VStr "_nolegend_"]> kws else kws in
  do kw <- lift (call_kw [("ymin", ymin); ("ymax", ymax)] kws);
  run emit (Call plotter "panel.axes.axvline" [x] kw);
  when (negb (truthy delay_draw))
    (emit (Call plotter "panel.canvas.draw" [] ∅)).

(** [hist(x, bins=10, win=1, new=False, size=None, force_draw=True,
    title=None, *args, **kws)].  The value returned is the one the
    histogram call returned: the function yields the position of that call
    in [calls]. *)
Definition hist (x bins win new size force_draw title : pyval)
    (args : list pyval) (kws : kwargs) : M nat :=
  do plotter <- get_plot_window win size VNone VNone;
  run emit (Call plotter "Raise" [] ∅);
  run when (truthy new) (emit (Call plotter "panel.axes.clear" [] ∅));
  do kw <- lift (call_kw [("bins", bins)] kws);
  do out <- get (fun s => List.length (calls s));
  run emit (Call plotter "panel.axes.hist" [x] kw);
  run when (negb (is_None title))
        (emit (Call plotter "panel.set_title" [title] ∅));
  run emit (Call plotter "panel.canvas.draw" [] ∅);
  ret out.

(** [imshow(map, x=None, y=None, colormap=None, win=1, wintitle=None,
    size=None, **kws)] *)
Definition imshow (map x y colormap win wintitle size : pyval)
    (kws : kwargs) : M loc :=
  do img <- get_image_window win size wintitle;
  do kw <- lift (call_kw [("x", x); ("y", y); ("colormap", colormap)] kws);
  run emit (Call img "display" [map] kw);
  ret img.

(** A call [imshow(map, **kw)]. *)
Definition imshow_kw (map : pyval) (kw : kwargs) : M loc :=
  run lift (positional ["map"] kw);
  imshow map (kwarg "x" VNone kw) (kwarg "y" VNone kw)
    (kwarg "colormap" VNone kw) (kwarg "win" (VInt 1) kw)
    (kwarg "wintitle" VNone kw) (kwarg "size" VNone kw)
    (without ["x"; "y"; "colormap"; "win"; "wintitle"; "size"] kw).

(** [contour(map, x=None, y=None, **kws)] *)
Definition contour (map x y : pyval) (kws : kwargs) : M unit :=
  let kws := <["style" := VStr "contour"]> kws in
  do kw <- lift (call_kw [("x", x); ("y", y)] kws);
  run imshow_kw map kw;
  ret tt.

(** ** Sessions

    What a process can do with the module: call its functions, instantiate
    its two classes, and let the frames invoke the callbacks the displays
    installed.  A session is a list of such operations; an operation that
    raises leaves the state it reached and the session goes on, as at an
    interactive prompt. *)

Inductive op :=
| Get_wxapp (redirect clearSigInt : pyval)
| Wxmainloop
| Set_theme (theme : string)
| Available_themes
| New_PlotDisplay (window : Z) (size theme wintitle : pyval) (kws : kwargs)
| New_ImageDisplay (window : Z) (size theme wintitle : pyval) (kws : kwargs)
| OnExit (self : loc) (o : pyval) (kw : kwargs)
| OnCursor (self : loc) (kw : kwargs) (now : timestamp)
| Get_plot_window (win size wintitle theme : pyval)
| Get_image_window (win size wintitle : pyval)
| Plot (x y win new size wintitle theme : pyval) (kws : kwargs)
| Update_trace (x y trace win : pyval) (kws : kwargs)
| Plot_setlimits (xmin xmax ymin ymax win : pyval)
| Newplot (x y win wintitle : pyval) (kws : kwargs)
| Plot_text (text x y win rotation ha va side size : pyval) (kws : kwargs)
| Plot_arrow
    (x1 y1 x2 y2 win side shape color width head_width head_length size : pyval)
    (kws : kwargs)
| Plot_marker (x y marker size color label win : pyval) (kws : kwargs)
| Plot_axhline (y xmin xmax win size delay_draw : pyval) (kws : kwargs)
| Plot_axvline (x ymin ymax win size delay_draw : pyval) (kws : kwargs)
| Hist (x bins win new size force_draw title : pyval) (args : list pyval)
    (kws : kwargs)
| Imshow (map x y colormap win wintitle size : pyval) (kws : kwargs)
| Contour (map x y : pyval) (kws : kwargs).

Definition void {A} (m : M A) : M unit := run m; ret tt.

Definition exec_op (o : op) : M unit :=
  match o with
  | Get_wxapp r c => void (get_wxapp r c)
  | Wxmainloop => __wxmainloop__
  | Set_theme t => set_theme t
  | Available_themes => void available_themes
  | New_PlotDisplay w sz th wt kws => void (PlotDisplay_init w sz th wt kws)
  | New_ImageDisplay w sz th wt kws => void (ImageDisplay_init w sz th wt kws)
  | OnExit self o kw => onExit self o kw
  | OnCursor self kw now => onCursor self kw now
  | Get_plot_window w sz wt th => void (get_plot_window w sz wt th)
  | Get_image_window w sz wt => void (get_image_window w sz wt)
  | Plot x y w n sz wt th kws => void (plot x y w n sz wt th kws)
  | Update_trace x y t w kws => update_trace x y t w kws
  | Plot_setlimits a b c d w => plot_setlimits a b c d w
  | Newplot x y w wt kws => void (newplot x y w wt kws)
  | Plot_text t x y w r ha va sd sz kws => plot_text t x y w r ha va sd sz kws
  | Plot_arrow x1 y1 x2 y2 w sd sh c wd hw hl sz kws =>
      plot_arrow x1 y1 x2 y2 w sd sh c wd hw hl sz kws
  | Plot_marker x y m sz c l w kws => plot_marker x y m sz c l w kws
  | Plot_axhline y a b w sz dd kws => plot_axhline y a b w sz dd kws
  | Plot_axvline x a b w sz dd kws => plot_axvline x a b w sz dd kws
  | Hist x b w n sz fd t args kws => void (hist x b w n sz fd t args kws)
  | Imshow m x y c w wt sz kws => void (imshow m x y c w wt sz kws)
  | Contour m x y kws => contour m x y kws
  end.

(** The state after a session. *)
Definition exec (ops : list op) (s : state) : state :=
  foldl (fun s o => (exec_op o s).2) s ops.

Definition is_OnExit (o : op) : bool :=
  match o with OnExit _ _ _ => true | _ => false end.

Definition is_OnCursor (o : op) : bool :=
  match o with OnCursor _ _ _ => true | _ => false end.

(** ** Vocabulary of the statements *)

(** Modelled from the spec: the keys of [config.Themes], a table that is not
    among the sources, as the docstring of [available_themes] lists them
    ("As of this writing, the list is ..."). *)
Definition documented_themes : list string :=
  ["light"; "dark"; "matplotlib"; "seaborn"; "ggplot"; "bmh";
   "fivethirtyeight"; "grayscale"; "dark_background";
   "tableau-colorblind10"; "seaborn-bright"; "seaborn-colorblind";
   "seaborn-dark"; "seaborn-darkgrid"; "seaborn-dark-palette";
   "seaborn-deep"; "seaborn-notebook"; "seaborn-muted"; "seaborn-pastel";
   "seaborn-paper"; "seaborn-poster"; "seaborn-talk"; "seaborn-ticks";
   "seaborn-white"; "seaborn-whitegrid"; "Solarize_Light2"].

(** The call [plot(x, y, win=win, wintitle=wintitle, new=True, **kws)] that
    the docstring of [newplot] gives as its equivalent, written as a call:
    it is compared with [newplot] below. *)
Definition plot_new_True (x y win wintitle : pyval) (kws : kwargs) : M loc :=
  do kw <- lift (call_kw [("win", win); ("wintitle", wintitle);
                          ("new", VBool true)] kws);
  plot_kw x y kw.

(** The calls made between two states of one run. *)
Definition new_calls (s s' : state) : list event :=
  drop (List.length (calls s)) (calls s').

(** The drawing methods the forwarders delegate to. *)
Definition draw_targets : list string :=
  ["plot"; "oplot"; "panel.update_line"; "panel.set_xylims"; "add_text";
   "add_arrow"; "panel.axes.axhline"; "panel.axes.axvline";
   "panel.axes.hist"; "display"].

Definition is_draw (e : event) : bool :=
  match e with
  | Call _ t _ _ => bool_decide (t ∈ draw_targets)
  | _ => false
  end.

Definition draws (evs : list event) : list event := List.filter is_draw evs.

Definition is_canvas_draw (e : event) : bool :=
  match e with
  | Call _ t _ _ => String.eqb t "panel.canvas.draw"
  | _ => false
  end.

(** How many times the canvas was asked to draw. *)
Definition canvas_draws (evs : list event) : nat :=
  List.length (List.filter is_canvas_draw evs).

(** What making and showing a window calls: nothing that draws. *)
Definition is_setup (e : event) : bool :=
  match e with
  | WxApp _ | Init _ _ _ | SetAttr _ _ _ => true
  | Call _ t _ _ => bool_decide (t ∈ ["SetSize"; "Show"; "Raise"])
  | MainLoop _ => false
  end.

(** Between [s] and [s'] only such calls were made. *)
Definition only_setup (s s' : state) : Prop :=
  exists evs, calls s' = calls s ++ evs /\ forallb is_setup evs = true.

(** The catch-all keyword options a drawing forwarder was called with. *)
Definition forwarded_kws (o : op) : option kwargs :=
  match o with
  | Plot _ _ _ _ _ _ _ kws
  | Update_trace _ _ _ _ kws
  | Newplot _ _ _ _ kws
  | Plot_text _ _ _ _ _ _ _ _ _ kws
  | Plot_arrow _ _ _ _ _ _ _ _ _ _ _ _ kws
  | Plot_marker _ _ _ _ _ _ _ kws
  | Plot_axhline _ _ _ _ _ _ kws
  | Plot_axvline _ _ _ _ _ _ kws
  | Hist _ _ _ _ _ _ _ _ kws
  | Imshow _ _ _ _ _ _ _ kws
  | Contour _ _ _ kws => Some kws
  | _ => None
  end.

(** [newplot] and [contour] hand their keywords to [plot] and [imshow]:
    a keyword that names a parameter of these is bound to it there. *)
Definition bound_by_callee (o : op) : list string :=
  match o with
  | Newplot _ _ _ _ _ => ["new"; "size"; "theme"]
  | Contour _ _ _ _ => ["win"; "wintitle"; "size"]
  | _ => []
  end.

(** Keywords a forwarder sets whatever the caller gave. *)
Definition forced (o : op) : list (string * pyval) :=
  match o with
  | Contour _ _ _ _ => [("style", VStr "contour")]
  | _ => []
  end.

(** The reference-line forwarders, which supply a default label. *)
Definition is_refline (o : op) : bool :=
  match o with
  | Plot_axhline _ _ _ _ _ _ _ | Plot_axvline _ _ _ _ _ _ _ => true
  | _ => false
  end.

(** What a forwarder called with the options [kws] did with them between
    [s] and [s']: it delegated one drawing call; every option reached that
    call with the value the caller gave, unless the forwarder forces that
    keyword or its callee binds it to a parameter; the forced keywords
    reached it with the forced values; and a reference-line forwarder
    passed the caller's label, or the default label when there was none. *)
Definition passes (o : op) (kws : kwargs) (s s' : state) : Prop :=
  exists l t args kw,
    draws (new_calls s s') = [Call l t args kw] /\
    (forall k v, kws !! k = Some v ->
       k ∈ bound_by_callee o \/ k ∈ (forced o).*1 \/ kw !! k = Some v) /\
    (forall k v, (k, v) ∈ forced o -> kw !! k = Some v) /\
    (is_refline o = true ->
     kw !! "label" =
       Some (match kws !! "label" with
             | Some v => v
             | None => VStr "_nolegend_"
             end)).

(** A catch-all dictionary never holds the name of a parameter of its own
    function: Python binds such a keyword to the parameter. *)
Definition catch_all (params : list string) (kws : kwargs) : Prop :=
  Forall (fun k => kws !! k = None) params.

(** ** Reasoning about monadic code *)

(** [wp m Q s]: running [m] from [s] ends in an outcome and a state that
    satisfy [Q]. *)
Definition wp {A} (m : M A) (Q : outcome A -> state -> Prop) (s : state)
  : Prop :=
  Q (m s).1 (m s).2.

(** [keeps R m]: the state [m] ends in is [R]-related to the one it
    started from, whatever the outcome. *)
Definition keeps (R : state -> state -> Prop) {A} (m : M A) : Prop :=
  forall s, R s (m s).2.

(** Relations between the state before and after an operation. *)

(** No registry entry is deleted. *)
Definition registries_grow (s s' : state) : Prop :=
  (forall k, is_Some (PLOT_DISPLAYS s !! k) -> is_Some (PLOT_DISPLAYS s' !! k)) /\
  (forall k, is_Some (IMG_DISPLAYS s !! k) -> is_Some (IMG_DISPLAYS s' !! k)).

(** No stored display is modified. *)
Definition displays_stay (s s' : state) : Prop :=
  forall l d, objects s !! l = Some d -> objects s' !! l = Some d.

(** A property of states is kept. *)
Definition preserved (P : state -> Prop) (s s' : state) : Prop :=
  P s -> P s'.

(** Every cursor history holds at most [MAX_CURSHIST] entries. *)
Definition hist_bounded (s : state) : Prop :=
  Forall (fun d => (List.length (cursor_hist d) <= MAX_CURSHIST)%nat)
    (objects s).

(** The application the process ends up with when the environment has
    [env] running: that one, or the first one constructed. *)
Definition the_app (env : option app) : app :=
  match env with Some a => a | None => NewApp 0 end.

(** The accessor has either not run yet, or has bound [wxapp] to
    [the_app env], constructing an application only if none was running. *)
Definition app_once (env : option app) (s : state) : Prop :=
  wx_GetApp s = env /\
  ((wxapp s = None /\ count_WxApp (calls s) = 0%nat) \/
   (wxapp s = Some (the_app env) /\
    count_WxApp (calls s) = match env with Some _ => 0%nat | None => 1%nat end)).

(** An operation keeps [app_once], and never unbinds [wxapp]. *)
Definition app_kept (env : option app) (s s' : state) : Prop :=
  (app_once env s -> app_once env s') /\
  (forall a, wxapp s = Some a -> wxapp s' = Some a).

(** ** Vocabulary for sessions of the public functions *)

(** The operations other than instantiating [PlotDisplay] or
    [ImageDisplay] directly: the functions of [__all__] and the callbacks
    of the displays they made. *)
Definition is_public (o : op) : bool :=
  match o with
  | New_PlotDisplay _ _ _ _ _ | New_ImageDisplay _ _ _ _ _ => false
  | _ => true
  end.

(** The operations that reach the state through the accessor and the two
    factories only. *)
Definition above_factory (o : op) : bool :=
  match o with
  | Set_theme _ | New_PlotDisplay _ _ _ _ _ | New_ImageDisplay _ _ _ _ _
  | OnExit _ _ _ | OnCursor _ _ _ => false
  | _ => true
  end.

(** The handle a factory or forwarder is called with. *)
Definition handle_of (o : op) : option pyval :=
  match o with
  | Get_plot_window win _ _ _
  | Get_image_window win _ _
  | Plot _ _ win _ _ _ _ _
  | Update_trace _ _ _ win _
  | Plot_setlimits _ _ _ _ win
  | Newplot _ _ win _ _
  | Plot_text _ _ _ win _ _ _ _ _ _
  | Plot_arrow _ _ _ _ win _ _ _ _ _ _ _ _
  | Plot_marker _ _ _ _ _ _ win _
  | Plot_axhline _ _ _ win _ _ _
  | Plot_axvline _ _ _ win _ _ _
  | Hist _ _ win _ _ _ _ _ _
  | Imshow _ _ _ _ win _ _ _ => Some win
  | _ => None
  end.

(** A registry of displays of class [c] over the store [objs]: every key
    lies in 1..100 and refers to a stored display of class [c] whose
    [window] is that key. *)
Definition registry_ok (c : display_class) (reg : gmap Z loc)
    (objs : list display) : Prop :=
  forall k l, reg !! k = Some l ->
    1 <= k <= 100 /\
    exists d, objs !! l = Some d /\ cls d = c /\ window d = k.

(** Both registries are in order, and no display exists without the
    application. *)
Definition module_ok (s : state) : Prop :=
  registry_ok PlotDisplay (PLOT_DISPLAYS s) (objects s) /\
  registry_ok ImageDisplay (IMG_DISPLAYS s) (objects s) /\
  (objects s <> [] -> is_Some (wxapp s)).

(** The theme table and the default theme are as they were. *)
Definition theme_kept (s s' : state) : Prop :=
  Themes s' = Themes s /\ DEFAULT_THEME s' = DEFAULT_THEME s.

(** What the initialiser of a frame class was called with. *)
Definition is_Init (e : event) : bool :=
  match e with Init _ _ _ => true | _ => false end.

Definition is_Set_theme (o : op) : bool :=
  match o with Set_theme _ => true | _ => false end.

(** A short session: a trace on plot window 250 (that is, 100), an image
    on image window 0 (that is, 1), a cursor event on the plot window, the
    image window closed, and a second trace. *)
Definition demo_session : list op :=
  [Plot (VList [VInt 0; VInt 1]) (VList [VInt 2; VInt 3]) (VInt 250)
     (VBool false) VNone VNone VNone ∅;
   Imshow (VList [VList [VInt 0]]) VNone VNone VNone (VInt 0) VNone VNone ∅;
   OnCursor 0%nat (<["x" := VInt 5]> ∅) 0%Q;
   OnExit 1%nat VNone ∅;
   Plot (VList [VInt 0; VInt 1]) (VList [VInt 4; VInt 5]) (VInt (-100))
     (VBool false) VNone VNone VNone (<["color" := VStr "red"]> ∅)].

(** The calls of the method [target] among [evs]. *)
Definition calls_to (target : string) (evs : list event) : list event :=
  List.filter
    (fun e => match e with
              | Call _ t _ _ => String.eqb t target
              | _ => false
              end) evs.

(** The values Python's [abs] is not defined on: None, strings, tuples,
    lists and bound methods.  Ints and bools have an absolute value. *)
Definition has_no_abs (v : pyval) : bool :=
  match v with
  | VNone | VStr _ | VTuple _ | VList _ | VMethod _ _ => true
  | VBool _ | VInt _ => false
  end.

(** What a cursor event with keywords [kw] at time [now] leaves in the
    history of a display of class [c]: the coordinates the callback of that
    class picks, and the time. *)
Definition cursor_entry_of (c : display_class) (kw : kwargs)
    (now : timestamp) : cursor_entry :=
  (match c with
   | PlotDisplay => [kwarg "x" VNone kw; kwarg "y" VNone kw]
   | ImageDisplay =>
       [kwarg "x" VNone kw; kwarg "y" VNone kw;
        kwarg "ix" VNone kw; kwarg "iy" VNone kw]
   end, now).

(** A run of cursor events on one display, oldest first. *)
Definition cursor_events (self : loc) (evs : list (kwargs * timestamp))
  : list op :=
  List.map (fun e => OnCursor self e.1 e.2) evs.

(** * Proofs *)

#[local] Arguments Z.max : simpl never.
#[local] Arguments Z.min : simpl never.
#[local] Arguments Z.abs : simpl never.
#[local] Arguments pretty : simpl never.
#[local] Arguments call_kw : simpl never.
#[local] Arguments positional : simpl never.
#[local] Arguments list_to_map : simpl never.
#[local] Arguments count_WxApp : simpl never.

(** ** The model on concrete inputs *)

Example lower_mixed_case : lower "Solarize_Light2" = "solarize_light2".
Proof. reflexivity. Qed.

Example plot_window_minus_300 :
  let r := get_plot_window (VInt (-300)) VNone VNone VNone
             (initial_state None documented_themes) in
  r.1 = Ret 0%nat /\ PLOT_DISPLAYS r.2 !! 100 = Some 0%nat /\
  objects r.2 = [{| cls := PlotDisplay; window := 100; cursor_hist := [] |}].
Proof. repeat split; reflexivity. Qed.

Example plot_window_by_name_fails :
  (get_plot_window (VStr "1") VNone VNone VNone
     (initial_state None documented_themes)).1 = Raise TypeError.
Proof. reflexivity. Qed.

Example plot_marker_markersize_clash :
  (plot_marker (VInt 1) (VInt 2) (VStr "o") (VInt 4) (VStr "black")
     (VStr "_nolegend_") (VInt 1) (<["markersize" := VInt 3]> ∅)
     (initial_state None documented_themes)).1 = Raise TypeError.
Proof. reflexivity. Qed.

Example running_app_is_reused :
  (get_wxapp (VBool false) (VBool true)
     (initial_state (Some EnvApp) documented_themes)).1 = Ret EnvApp.
Proof. reflexivity. Qed.

(** ** Rules for [wp] *)

Lemma wp_bind {A B} (m : M A) (k : A -> M B) Q s :
  wp m (fun o s' =>
          match o with
          | Ret a => wp (k a) Q s'
          | Raise e => Q (Raise e) s'
          end) s ->
  wp (bind m k) Q s.
Proof. unfold wp, bind. by destruct (m s) as [[a|e] s']. Qed.

Lemma wp_wand {A} (m : M A) (Q Q' : outcome A -> state -> Prop) s :
  wp m Q s -> (forall o s', Q o s' -> Q' o s') -> wp m Q' s.
Proof. unfold wp. auto. Qed.

Lemma wp_elim {A} (m : M A) Q s :
  wp m Q s -> exists o s', m s = (o, s') /\ Q o s'.
Proof. unfold wp. destruct (m s) as [o s']. eauto. Qed.

(** One step of symbolic execution: the primitives are run, a bind is
    split, a test is decided by cases. *)
Ltac wp_prim :=
  unfold wp at 1;
  cbn [ret raise lift get emit set_wxapp set_DEFAULT_THEME set_PLOT_DISPLAYS
       set_IMG_DISPLAYS set_objects fst snd
       wx_GetApp Themes wxapp DEFAULT_THEME IMG_DISPLAYS PLOT_DISPLAYS
       objects calls].

Ltac wp_step :=
  lazymatch goal with
  | |- wp (bind _ _) _ _ => apply wp_bind
  | |- wp (ret _) _ _ => wp_prim
  | |- wp (raise _) _ _ => wp_prim
  | |- wp (lift _) _ _ => wp_prim
  | |- wp (get _) _ _ => wp_prim
  | |- wp (emit _) _ _ => wp_prim
  | |- wp (set_wxapp _) _ _ => wp_prim
  | |- wp (set_DEFAULT_THEME _) _ _ => wp_prim
  | |- wp (set_PLOT_DISPLAYS _) _ _ => wp_prim
  | |- wp (set_IMG_DISPLAYS _) _ _ => wp_prim
  | |- wp (set_objects _) _ _ => wp_prim
  | |- wp (let _ := _ in _) _ _ => cbv zeta
  | |- wp (when _ _) _ _ => unfold when at 1
  | |- wp (void _) _ _ => unfold void at 1
  | |- wp (if ?b then _ else _) _ _ => destruct b eqn:?
  | |- wp (match ?x with _ => _ end) _ _ => destruct x eqn:?
  | |- match ?x with Ret _ => _ | Raise _ => _ end => destruct x eqn:?
  end.

(** ** Keyword dictionaries *)

Lemma call_kw_Ret (explicit : list (string * pyval)) (kws : kwargs) :
  (forall k v, In (k, v) explicit -> kws !! k = None) ->
  call_kw explicit kws = Ret (list_to_map explicit ∪ kws).
Proof.
  intros H. unfold call_kw.
  destruct (forallb _ explicit) eqn:E; [done|].
  exfalso. apply not_true_iff_false in E. apply E.
  apply forallb_forall. intros [k v] Hin.
  apply bool_decide_eq_true_2. by eapply H.
Qed.

Lemma call_kw_empty (explicit : list (string * pyval)) :
  call_kw explicit ∅ = Ret (list_to_map explicit ∪ ∅).
Proof. apply call_kw_Ret. intros. apply lookup_empty. Qed.

(** A call that goes through passes on exactly the written keywords and
    the unpacked ones. *)
Lemma call_kw_inv (explicit : list (string * pyval)) (kws kw : kwargs) :
  call_kw explicit kws = Ret kw ->
  kw = list_to_map explicit ∪ kws /\
  (forall k v, In (k, v) explicit -> kws !! k = None).
Proof.
  unfold call_kw. destruct (forallb _ explicit) eqn:E; [|done].
  intros [= <-]. split; [done|]. intros k v Hin.
  rewrite forallb_forall in E. specialize (E _ Hin).
  by apply bool_decide_eq_true_1 in E.
Qed.

(** Every unpacked keyword reaches the callee with its value. *)
Lemma call_kw_passes (explicit : list (string * pyval)) (kws kw : kwargs)
    (k : string) (v : pyval) :
  call_kw explicit kws = Ret kw -> kws !! k = Some v -> kw !! k = Some v.
Proof.
  intros H Hk. apply call_kw_inv in H as [-> Hfree].
  apply lookup_union_Some_raw. right. split; [|done].
  apply not_elem_of_list_to_map_1. intros Hin.
  apply list_elem_of_fmap in Hin as [[k' v'] [-> Hin]].
  apply list_elem_of_In in Hin. apply Hfree in Hin. simpl in *.
  rewrite Hin in Hk. discriminate.
Qed.

(** ** The constructors and the factory *)

(** The key both factories compute from an integer handle. *)
#[local] Abbreviation clamp h := (Z.max 1 (Z.min MAX_WINDOWS (Z.abs h))) (only parsing).

Lemma only_setup_refl s : only_setup s s.
Proof. exists []. by rewrite app_nil_r. Qed.

Lemma PlotDisplay_init_spec (w : Z) (sz th wt : pyval) (s : state) :
  wp (PlotDisplay_init w sz th wt ∅)
    (fun o s' =>
       o = Ret (List.length (objects s)) /\
       objects s' =
         objects s ++
         [{| cls := PlotDisplay; window := w; cursor_hist := [] |}] /\
       PLOT_DISPLAYS s' =
         (if bool_decide (PLOT_DISPLAYS s !! w = None)
          then <[w := List.length (objects s)]> (PLOT_DISPLAYS s)
          else PLOT_DISPLAYS s) /\
       IMG_DISPLAYS s' = IMG_DISPLAYS s /\
       DEFAULT_THEME s' = DEFAULT_THEME s /\
       Themes s' = Themes s /\
       only_setup s s') s.
Proof.
  unfold PlotDisplay_init, get_wxapp, only_setup.
  repeat wp_step.
  all: try (rewrite call_kw_empty in *; simplify_eq).
  all: repeat wp_step.
  all: repeat split; try done.
  all: rewrite <- ?app_assoc; eexists; split; reflexivity.
Qed.

Lemma ImageDisplay_init_spec (w : Z) (sz th wt : pyval) (s : state) :
  wp (ImageDisplay_init w sz th wt ∅)
    (fun o s' =>
       o = Ret (List.length (objects s)) /\
       objects s' =
         objects s ++
         [{| cls := ImageDisplay; window := w; cursor_hist := [] |}] /\
       IMG_DISPLAYS s' =
         (if bool_decide (IMG_DISPLAYS s !! w = None)
          then <[w := List.length (objects s)]> (IMG_DISPLAYS s)
          else IMG_DISPLAYS s) /\
       PLOT_DISPLAYS s' = PLOT_DISPLAYS s /\
       DEFAULT_THEME s' = DEFAULT_THEME s /\
       Themes s' = Themes s /\
       only_setup s s') s.
Proof.
  unfold ImageDisplay_init, get_wxapp, only_setup.
  repeat wp_step.
  all: try (rewrite call_kw_empty in *; simplify_eq).
  all: repeat wp_step.
  all: repeat split; try done.
  all: rewrite <- ?app_assoc; eexists; split; reflexivity.
Qed.

(** The factory on an integer handle [h]: the window registered under the
    clamped handle, or a new one registered there. *)
Lemma get_plot_window_spec (h : Z) (sz wt th : pyval) (s : state) :
  wp (get_plot_window (VInt h) sz wt th)
    (fun o s' =>
       exists l, o = Ret l /\
         PLOT_DISPLAYS s' !! clamp h = Some l /\
         IMG_DISPLAYS s' = IMG_DISPLAYS s /\
         DEFAULT_THEME s' = DEFAULT_THEME s /\
         Themes s' = Themes s /\
         only_setup s s' /\
         match PLOT_DISPLAYS s !! clamp h with
         | Some l0 => l = l0 /\ s' = s
         | None =>
             l = List.length (objects s) /\
             objects s' =
               objects s ++
               [{| cls := PlotDisplay; window := clamp h;
                   cursor_hist := [] |}] /\
             PLOT_DISPLAYS s' = <[clamp h := l]> (PLOT_DISPLAYS s)
         end) s.
Proof.
  set (k := clamp h). unfold get_plot_window.
  wp_step. wp_step. cbn [int_abs]. fold k. wp_step. wp_step.
  destruct (PLOT_DISPLAYS s !! k) as [l0|] eqn:Hk.
  - wp_step. exists l0. rewrite Hk. auto 10 using only_setup_refl.
  - eapply wp_wand; [apply PlotDisplay_init_spec|].
    intros o s' (-> & Hobj & Hreg & ? & ? & ? & ?).
    rewrite bool_decide_eq_true_2 in Hreg by done.
    eexists. split; [done|]. rewrite Hreg, lookup_insert_eq. auto 10.
Qed.

(** The image factory fails on a registered handle and leaves the state
    as it was. *)
Lemma get_image_window_spec (h : Z) (sz wt : pyval) (s : state) :
  wp (get_image_window (VInt h) sz wt)
    (fun o s' =>
       match IMG_DISPLAYS s !! clamp h with
       | Some _ => o = Raise NameError /\ s' = s
       | None =>
           o = Ret (List.length (objects s)) /\
           objects s' =
             objects s ++
             [{| cls := ImageDisplay; window := clamp h;
                 cursor_hist := [] |}] /\
           IMG_DISPLAYS s' =
             <[clamp h := List.length (objects s)]> (IMG_DISPLAYS s) /\
           PLOT_DISPLAYS s' = PLOT_DISPLAYS s /\
           DEFAULT_THEME s' = DEFAULT_THEME s /\
           Themes s' = Themes s /\
           only_setup s s'
       end) s.
Proof.
  set (k := clamp h). unfold get_image_window.
  wp_step. wp_step. cbn [int_abs]. fold k. wp_step. wp_step.
  destruct (IMG_DISPLAYS s !! k) as [l0|] eqn:Hk.
  - wp_step. done.
  - eapply wp_wand; [apply ImageDisplay_init_spec|].
    intros o s' (-> & Hobj & Hreg & ? & ? & ? & ?).
    rewrite bool_decide_eq_true_2 in Hreg by done. auto 10.
Qed.

(** Whatever the handle, the factories call nothing that draws. *)
Lemma get_plot_window_setup (win sz wt th : pyval) (s : state) :
  wp (get_plot_window win sz wt th) (fun _ s' => only_setup s s') s.
Proof.
  unfold get_plot_window.
  wp_step. wp_step. wp_step; [|apply only_setup_refl].
  wp_step. wp_step. wp_step.
  - wp_step. apply only_setup_refl.
  - eapply wp_wand; [apply PlotDisplay_init_spec|].
    by intros o s' (_ & _ & _ & _ & _ & _ & H).
Qed.

Lemma get_image_window_setup (win sz wt : pyval) (s : state) :
  wp (get_image_window win sz wt) (fun _ s' => only_setup s s') s.
Proof.
  unfold get_image_window.
  wp_step. wp_step. wp_step; [|apply only_setup_refl].
  wp_step. wp_step. wp_step.
  - wp_step. apply only_setup_refl.
  - eapply wp_wand; [apply ImageDisplay_init_spec|].
    by intros o s' (_ & _ & _ & _ & _ & _ & H).
Qed.

Lemma clamp_range (h : Z) : 1 <= clamp h <= 100.
Proof. unfold MAX_WINDOWS. lia. Qed.

Lemma lookup_new (A : Type) (l : list A) (x : A) :
  (l ++ [x]) !! List.length l = Some x.
Proof. by rewrite lookup_app_r, Nat.sub_diag. Qed.

(** X15. For every integer handle [h], both factories work on the key
    [k = max(1, min(100, abs(h)))], which lies in 1..100.  [get_plot_window]
    returns the window registered under [k], which is the one that was
    there or a new display whose [window] is [k].  [get_image_window], when
    [k] is free, returns a new display whose [window] is [k], registered
    under [k]; when [k] is taken it raises NameError and leaves the state
    as it was.  The only key either factory can add to its registry is [k],
    and neither touches the other registry. *)
Theorem factories_work_on_clamped_key (h : Z) (sz wt th : pyval) (s : state) :
  let k := Z.max 1 (Z.min 100 (Z.abs h)) in
  1 <= k <= 100 /\
  (exists l s',
     get_plot_window (VInt h) sz wt th s = (Ret l, s') /\
     PLOT_DISPLAYS s' !! k = Some l /\
     match PLOT_DISPLAYS s !! k with
     | Some l0 => l = l0
     | None =>
         objects s' !! l =
           Some {| cls := PlotDisplay; window := k; cursor_hist := [] |}
     end /\
     (forall j, is_Some (PLOT_DISPLAYS s' !! j) ->
                j = k \/ is_Some (PLOT_DISPLAYS s !! j)) /\
     IMG_DISPLAYS s' = IMG_DISPLAYS s) /\
  (exists o s',
     get_image_window (VInt h) sz wt s = (o, s') /\
     match IMG_DISPLAYS s !! k with
     | Some _ => o = Raise NameError /\ s' = s
     | None =>
         exists l, o = Ret l /\ IMG_DISPLAYS s' !! k = Some l /\
           objects s' !! l =
             Some {| cls := ImageDisplay; window := k; cursor_hist := [] |}
     end /\
     (forall j, is_Some (IMG_DISPLAYS s' !! j) ->
                j = k \/ is_Some (IMG_DISPLAYS s !! j)) /\
     PLOT_DISPLAYS s' = PLOT_DISPLAYS s).
Proof.
  intros k. change 100 with MAX_WINDOWS in k.
  split; [apply clamp_range|]. split.
  - destruct (wp_elim _ _ _ (get_plot_window_spec h sz wt th s))
      as (o & s' & Heq & l & -> & Hl & Himg & _ & _ & _ & Hcase).
    fold k in Hl, Hcase. exists l, s'. split; [done|]. split; [done|].
    destruct (PLOT_DISPLAYS s !! k) as [l0|] eqn:Hk.
    + destruct Hcase as [-> ->]. auto.
    + destruct Hcase as (-> & Hobj & Hreg). rewrite Hobj, Hreg.
      split; [apply lookup_new|]. split; [|done].
      intros j Hj. destruct (decide (k = j)) as [->|Hne]; [by left|].
      right. by rewrite lookup_insert_ne in Hj.
  - destruct (wp_elim _ _ _ (get_image_window_spec h sz wt s))
      as (o & s' & Heq & Hcase).
    fold k in Hcase. exists o, s'. split; [done|].
    destruct (IMG_DISPLAYS s !! k) as [l0|] eqn:Hk.
    + destruct Hcase as [-> ->]. auto.
    + destruct Hcase as (-> & Hobj & Hreg & Hplot & _).
      rewrite Hobj, Hreg. split.
      * eexists. split; [done|]. rewrite lookup_insert_eq.
        split; [done|apply lookup_new].
      * split; [|done].
        intros j Hj. destruct (decide (k = j)) as [->|Hne]; [by left|].
        right. by rewrite lookup_insert_ne in Hj.
Qed.

(** The image factory on a handle that is registered: a NameError, and
    nothing changed. *)
Lemma get_image_window_registered (h : Z) (sz wt : pyval) (s : state) (l : loc) :
  IMG_DISPLAYS s !! clamp h = Some l ->
  get_image_window (VInt h) sz wt s = (Raise NameError, s).
Proof.
  intros H.
  destruct (wp_elim _ _ _ (get_image_window_spec h sz wt s))
    as (o & s' & Heq & Hcase).
  rewrite H in Hcase. by destruct Hcase as [-> ->].
Qed.

(** The plot factory on a handle that is registered: the registered
    window, and nothing changed. *)
Lemma get_plot_window_registered (h : Z) (sz wt th : pyval) (s : state)
    (l : loc) :
  PLOT_DISPLAYS s !! clamp h = Some l ->
  get_plot_window (VInt h) sz wt th s = (Ret l, s).
Proof.
  intros H.
  destruct (wp_elim _ _ _ (get_plot_window_spec h sz wt th s))
    as (o & s' & Heq & l' & -> & _ & _ & _ & _ & _ & Hcase).
  rewrite H in Hcase. by destruct Hcase as [-> ->].
Qed.

(** C1, at a failing input.  Handle 250 lies outside 1..100 and clamps to
    100.  [get_plot_window(win=250)] resolves it every time: the first call
    makes and registers plot window 100, the second returns that window.
    [get_image_window(win=250)] resolves it once: the first call makes and
    registers image window 100, the second does not resolve the handle to
    that window but raises NameError. *)
Theorem C1_image_handle_250_not_resolved :
  let s0 := initial_state None [] in
  let p1 := get_plot_window (VInt 250) VNone VNone VNone s0 in
  let i1 := get_image_window (VInt 250) VNone VNone s0 in
  p1.1 = Ret 0%nat /\
  PLOT_DISPLAYS p1.2 !! 100 = Some 0%nat /\
  get_plot_window (VInt 250) VNone VNone VNone p1.2 = (Ret 0%nat, p1.2) /\
  i1.1 = Ret 0%nat /\
  IMG_DISPLAYS i1.2 !! 100 = Some 0%nat /\
  get_image_window (VInt 250) VNone VNone i1.2 = (Raise NameError, i1.2).
Proof.
  intros s0 p1 i1.
  assert (Hp : PLOT_DISPLAYS p1.2 !! 100 = Some 0%nat) by reflexivity.
  assert (Hi : IMG_DISPLAYS i1.2 !! 100 = Some 0%nat) by reflexivity.
  split; [reflexivity|]. split; [exact Hp|].
  split; [by apply (get_plot_window_registered 250)|].
  split; [reflexivity|]. split; [exact Hi|].
  by apply (get_image_window_registered 250 _ _ _ 0%nat).
Qed.

(** C2, at the failing input.  After [get_image_window(win=1)] has made
    and registered image window 1, the same call does not return that
    window: it raises NameError, because the branch for a registered handle
    reads [IMG_DISPLAY], a name the module does not define. *)
Theorem C2_registered_image_window_raises :
  let s1 := (get_image_window (VInt 1) VNone VNone (initial_state None [])).2 in
  IMG_DISPLAYS s1 !! 1 = Some 0%nat /\
  get_image_window (VInt 1) VNone VNone s1 = (Raise NameError, s1).
Proof.
  intros s1. assert (H : IMG_DISPLAYS s1 !! 1 = Some 0%nat) by reflexivity.
  split; [done|]. by apply (get_image_window_registered 1 _ _ _ 0%nat).
Qed.

(** [plot] after the factory: the window is raised and the trace drawn or
    overplotted; nothing else changes. *)
Lemma plot_spec (h : Z) (new x y sz wt th : pyval) (kws : kwargs)
    (s : state) (l : loc) (s1 : state) :
  get_plot_window (VInt h) sz wt th s = (Ret l, s1) ->
  exists s',
    plot x y (VInt h) new sz wt th kws s = (Ret l, s') /\
    objects s' = objects s1 /\
    PLOT_DISPLAYS s' = PLOT_DISPLAYS s1 /\
    IMG_DISPLAYS s' = IMG_DISPLAYS s1 /\
    calls s' =
      calls s1 ++
      [Call l "Raise" [] ∅;
       Call l (if truthy new then "plot" else "oplot") [x; y] kws].
Proof.
  intros Heq. unfold plot, bind at 1. rewrite Heq.
  destruct (truthy new); eexists; (split; [reflexivity|]); cbn;
    by rewrite <- app_assoc.
Qed.

(** C3. Two calls of [plot] with the same integer handle and [new=False]:
    both return normally and return the same object, the one registered
    under the clamped handle.  The first call either finds that entry, and
    then stores and registers nothing, or makes it: one new display of
    class PlotDisplay for the clamped handle, stored and registered under
    it.  The second call reuses the entry: it stores no display, leaves the
    registry as it is, and calls nothing but [Raise] and [oplot] on that
    object, so no second window is constructed or registered. *)
Theorem C3_plot_twice_same_window
    (h : Z) (x1 y1 sz1 wt1 th1 x2 y2 sz2 wt2 th2 : pyval)
    (kws1 kws2 : kwargs) (s : state) :
  exists l s1 s2,
    plot x1 y1 (VInt h) (VBool false) sz1 wt1 th1 kws1 s = (Ret l, s1) /\
    plot x2 y2 (VInt h) (VBool false) sz2 wt2 th2 kws2 s1 = (Ret l, s2) /\
    objects s2 = objects s1 /\
    PLOT_DISPLAYS s2 = PLOT_DISPLAYS s1 /\
    IMG_DISPLAYS s2 = IMG_DISPLAYS s1 /\
    calls s2 =
      calls s1 ++ [Call l "Raise" [] ∅; Call l "oplot" [x2; y2] kws2] /\
    PLOT_DISPLAYS s1 !! Z.max 1 (Z.min 100 (Z.abs h)) = Some l /\
    PLOT_DISPLAYS s2 !! Z.max 1 (Z.min 100 (Z.abs h)) = Some l /\
    match PLOT_DISPLAYS s !! Z.max 1 (Z.min 100 (Z.abs h)) with
    | Some l0 =>
        l = l0 /\ objects s1 = objects s /\
        PLOT_DISPLAYS s1 = PLOT_DISPLAYS s
    | None =>
        l = List.length (objects s) /\
        objects s1 =
          objects s ++
          [{| cls := PlotDisplay; window := Z.max 1 (Z.min 100 (Z.abs h));
              cursor_hist := [] |}] /\
        PLOT_DISPLAYS s1 =
          <[Z.max 1 (Z.min 100 (Z.abs h)) := l]> (PLOT_DISPLAYS s)
    end.
Proof.
  change 100 with MAX_WINDOWS.
  destruct (wp_elim _ _ _ (get_plot_window_spec h sz1 wt1 th1 s))
    as (o & t1 & Hw1 & l & -> & Hl & _ & _ & _ & _ & Hfirst).
  destruct (plot_spec h (VBool false) x1 y1 sz1 wt1 th1 kws1 s l t1 Hw1)
    as (s1 & Hp1 & Hobj1 & Hreg1 & _ & _).
  rewrite <- Hreg1 in Hl.
  destruct (wp_elim _ _ _ (get_plot_window_spec h sz2 wt2 th2 s1))
    as (o & t2 & Hw2 & l' & -> & _ & _ & _ & _ & _ & Hcase).
  rewrite Hl in Hcase. destruct Hcase as [-> ->].
  destruct (plot_spec h (VBool false) x2 y2 sz2 wt2 th2 kws2 s1 l s1 Hw2)
    as (s2 & Hp2 & Hobj & Hreg2 & Himg & Hcalls).
  exists l, s1, s2.
  do 6 (split; [done|]). split; [done|]. split; [by rewrite Hreg2|].
  rewrite Hobj1, Hreg1.
  destruct (PLOT_DISPLAYS s !! clamp h).
  - destruct Hfirst as [-> ->]. done.
  - exact Hfirst.
Qed.

(** ** Themes *)



(** ** [newplot] and [plot] *)

Lemma lookup_without (names : list string) (kw : kwargs) (k : string) :
  k ∉ names -> without names kw !! k = kw !! k.
Proof.
  unfold without. induction names as [|n names IH]; [done|].
  intros Hk. apply not_elem_of_cons in Hk as [Hne Hk]. cbn [foldr].
  rewrite lookup_delete_ne by done. auto.
Qed.

(** C9, as the claim states it, fails when the keyword options themselves
    hold [new]: [newplot] overrides it and plots, the call of [plot] with
    both [new=True] and the options is a TypeError. *)
Lemma C9_counterexample :
  let s := initial_state None documented_themes in
  let kws : kwargs := <["new" := VBool false]> ∅ in
  (newplot (VList [VInt 0]) (VList [VInt 1]) (VInt 1) VNone kws s).1 = Ret 0%nat /\
  (plot_new_True (VList [VInt 0]) (VList [VInt 1]) (VInt 1) VNone kws s).1 =
    Raise TypeError.
Proof. split; reflexivity. Qed.

(** C9, amended. For all x, y, win, wintitle and keyword options,
    [newplot] does what the call of [plot] with [new=True] does on the
    options without their [new] entry: the same outcome and the same state.
    In particular, on options that hold no [new] the two are the same. *)
Theorem C9_newplot_plot_new_True (x y win wintitle : pyval) (kws : kwargs)
    (s : state) :
  newplot x y win wintitle kws s =
  plot_new_True x y win wintitle (delete "new" kws) s.
Proof.
  unfold newplot, plot_new_True.
  assert (call_kw [("win", win); ("wintitle", wintitle)]
            (<["new" := VBool true]> kws) =
          call_kw [("win", win); ("wintitle", wintitle); ("new", VBool true)]
            (delete "new" kws)) as ->; [|done].
  unfold call_kw. cbn [forallb fst].
  rewrite !lookup_insert_ne, !lookup_delete_ne, lookup_delete_eq
    by discriminate.
  rewrite (bool_decide_eq_true_2 (None = None)) by done.
  rewrite !andb_true_r.
  destruct (_ && _); [|done]. f_equal.
  apply map_eq. intros i. unfold list_to_map. cbn [foldr uncurry fst snd].
  rewrite !lookup_union.
  destruct (decide (i = "win")) as [->|?];
    [by rewrite !lookup_insert_eq, lookup_insert_ne, lookup_delete_ne
       by discriminate|].
  destruct (decide (i = "wintitle")) as [->|?];
    [by rewrite !(lookup_insert_ne _ "win"), !lookup_insert_eq,
       lookup_insert_ne, lookup_delete_ne by discriminate|].
  destruct (decide (i = "new")) as [->|?].
  - rewrite !(lookup_insert_ne _ "win"), !(lookup_insert_ne _ "wintitle")
      by discriminate.
    by rewrite !lookup_insert_eq, lookup_empty, lookup_delete_eq.
  - by rewrite !lookup_insert_ne, lookup_delete_ne by done.
Qed.

(** ** Calls made by the forwarders *)

Lemma wp_conj {A} (m : M A) (Q1 Q2 : outcome A -> state -> Prop) s :
  wp m Q1 s -> wp m Q2 s -> wp m (fun o s' => Q1 o s' /\ Q2 o s') s.
Proof. unfold wp. auto. Qed.

Lemma new_calls_app (s s' : state) (evs : list event) :
  calls s' = calls s ++ evs -> new_calls s s' = evs.
Proof. unfold new_calls. intros ->. apply drop_app_length. Qed.

Lemma setup_not_draw (e : event) : is_setup e = true -> is_draw e = false.
Proof.
  destruct e as [| | l t args kw | |]; try done. cbn.
  intros H%bool_decide_eq_true_1.
  rewrite !elem_of_cons in H.
  destruct H as [->|[->|[->|H]]]; try reflexivity.
  by apply elem_of_nil in H.
Qed.

Lemma setup_not_canvas_draw (e : event) :
  is_setup e = true -> is_canvas_draw e = false.
Proof.
  destruct e as [| | l t args kw | |]; try done. cbn.
  intros H%bool_decide_eq_true_1.
  rewrite !elem_of_cons in H.
  destruct H as [->|[->|[->|H]]]; try reflexivity.
  by apply elem_of_nil in H.
Qed.

Lemma setup_no_draws (evs : list event) :
  forallb is_setup evs = true -> draws evs = [].
Proof.
  unfold draws. induction evs as [|e evs IH]; [done|]. cbn.
  intros [He Hevs]%andb_true_iff. rewrite (setup_not_draw e He). auto.
Qed.

Lemma setup_no_canvas_draws (evs : list event) :
  forallb is_setup evs = true -> canvas_draws evs = 0%nat.
Proof.
  unfold canvas_draws. induction evs as [|e evs IH]; [done|]. cbn.
  intros [He Hevs]%andb_true_iff. rewrite (setup_not_canvas_draw e He). auto.
Qed.

Lemma draws_app (evs evs' : list event) :
  draws (evs ++ evs') = draws evs ++ draws evs'.
Proof. apply List.filter_app. Qed.

Lemma canvas_draws_app (evs evs' : list event) :
  canvas_draws (evs ++ evs') = (canvas_draws evs + canvas_draws evs')%nat.
Proof. unfold canvas_draws. by rewrite List.filter_app, length_app. Qed.

Lemma catch_all_lookup (params : list string) (kws : kwargs) (k : string) :
  catch_all params kws -> k ∈ params -> kws !! k = None.
Proof. unfold catch_all. rewrite Forall_forall. auto. Qed.

(** The factory on any handle: only set-up calls, and a window when the
    handle is an integer. *)
Lemma get_plot_window_calls (win sz wt th : pyval) (s : state) :
  wp (get_plot_window win sz wt th)
    (fun o s' =>
       only_setup s s' /\ (forall h, win = VInt h -> exists l, o = Ret l)) s.
Proof.
  apply wp_conj; [apply get_plot_window_setup|].
  unfold wp. intros h ->.
  destruct (wp_elim _ _ _ (get_plot_window_spec h sz wt th s))
    as (o & s' & Heq & l & -> & _).
  rewrite Heq. eauto.
Qed.

(** What the two reference-line forwarders call, when they return: the
    set-up calls of the factory, [Raise], the line, and the canvas draw
    according to [delay_draw]. *)
Lemma plot_axhline_spec (y xmin xmax win sz dd : pyval) (kws : kwargs)
    (s : state) :
  wp (plot_axhline y xmin xmax win sz dd kws)
    (fun o s' =>
       (o = Ret tt ->
        exists l evs kw,
          forallb is_setup evs = true /\
          call_kw [("xmin", xmin); ("xmax", xmax)]
            (if bool_decide (kws !! "label" = None)
             then <["label" := VStr "_nolegend_"]> kws else kws) = Ret kw /\
          calls s' =
            calls s ++ evs ++
            [Call l "Raise" [] ∅; Call l "panel.axes.axhline" [y] kw] ++
            (if truthy dd then [Call l "panel.canvas.draw" [] ∅] else [])) /\
       (forall h, win = VInt h ->
          kws !! "xmin" = None -> kws !! "xmax" = None -> o = Ret tt)) s.
Proof.
  unfold plot_axhline. wp_step.
  eapply wp_wand; [apply get_plot_window_calls|].
  intros o s1 [(evs & Hc & Hsetup) Hint].
  destruct o as [l|e]; [|split; [done|]; intros h Hh; by destruct (Hint h Hh)].
  repeat wp_step.
  - split; [|done]. intros _. exists l, evs. eexists.
    split; [done|]. split; [reflexivity|]. cbn.
    rewrite Hc, <- !app_assoc. reflexivity.
  - split; [|done]. intros _. exists l, evs. eexists.
    split; [done|]. split; [reflexivity|]. cbn.
    rewrite Hc, <- !app_assoc. reflexivity.
  - split; [done|]. intros h _ H1 H2. exfalso.
    rewrite call_kw_Ret in *; [done|].
    intros k v [[= <- <-]|[[= <- <-]|[]]];
      destruct (bool_decide _); by rewrite ?lookup_insert_ne by discriminate.
Qed.

Lemma plot_axvline_spec (x ymin ymax win sz dd : pyval) (kws : kwargs)
    (s : state) :
  wp (plot_axvline x ymin ymax win sz dd kws)
    (fun o s' =>
       (o = Ret tt ->
        exists l evs kw,
          forallb is_setup evs = true /\
          call_kw [("ymin", ymin); ("ymax", ymax)]
            (if bool_decide (kws !! "label" = None)
             then <["label" := VStr "_nolegend_"]> kws else kws) = Ret kw /\
          calls s' =
            calls s ++ evs ++
            [Call l "Raise" [] ∅; Call l "panel.axes.axvline" [x] kw] ++
            (if truthy dd then [] else [Call l "panel.canvas.draw" [] ∅])) /\
       (forall h, win = VInt h ->
          kws !! "ymin" = None -> kws !! "ymax" = None -> o = Ret tt)) s.
Proof.
  unfold plot_axvline. wp_step.
  eapply wp_wand; [apply get_plot_window_calls|].
  intros o s1 [(evs & Hc & Hsetup) Hint].
  destruct o as [l|e]; [|split; [done|]; intros h Hh; by destruct (Hint h Hh)].
  repeat wp_step.
  - split; [|done]. intros _. exists l, evs. eexists.
    split; [done|]. split; [reflexivity|]. cbn.
    apply negb_true_iff in Heqb. rewrite Heqb.
    rewrite Hc, <- !app_assoc. reflexivity.
  - split; [|done]. intros _. exists l, evs. eexists.
    split; [done|]. split; [reflexivity|]. cbn.
    apply negb_false_iff in Heqb. rewrite Heqb.
    rewrite Hc, <- !app_assoc. reflexivity.
  - split; [done|]. intros h _ H1 H2. exfalso.
    rewrite call_kw_Ret in *; [done|].
    intros k v [[= <- <-]|[[= <- <-]|[]]];
      destruct (bool_decide _); by rewrite ?lookup_insert_ne by discriminate.
Qed.

Lemma plot_axhline_draws (h : Z) (y xmin xmax sz dd : pyval) (kws : kwargs)
    (s : state) :
  kws !! "xmin" = None -> kws !! "xmax" = None ->
  (plot_axhline y xmin xmax (VInt h) sz dd kws s).1 = Ret tt /\
  canvas_draws (new_calls s (plot_axhline y xmin xmax (VInt h) sz dd kws s).2) =
    (if truthy dd then 1 else 0)%nat.
Proof.
  intros H1 H2.
  destruct (wp_elim _ _ _ (plot_axhline_spec y xmin xmax (VInt h) sz dd kws s))
    as (o & s' & Heq & Hshape & Hret).
  rewrite Heq. cbn [fst snd].
  specialize (Hret h eq_refl H1 H2). split; [done|].
  destruct (Hshape Hret) as (l & evs & kw & Hsetup & _ & Hcalls).
  rewrite (new_calls_app _ _ _ Hcalls), canvas_draws_app.
  rewrite (setup_no_canvas_draws _ Hsetup).
  by destruct (truthy dd).
Qed.

Lemma plot_axvline_draws (h : Z) (x ymin ymax sz dd : pyval) (kws : kwargs)
    (s : state) :
  kws !! "ymin" = None -> kws !! "ymax" = None ->
  (plot_axvline x ymin ymax (VInt h) sz dd kws s).1 = Ret tt /\
  canvas_draws (new_calls s (plot_axvline x ymin ymax (VInt h) sz dd kws s).2) =
    (if truthy dd then 0 else 1)%nat.
Proof.
  intros H1 H2.
  destruct (wp_elim _ _ _ (plot_axvline_spec x ymin ymax (VInt h) sz dd kws s))
    as (o & s' & Heq & Hshape & Hret).
  rewrite Heq. cbn [fst snd].
  specialize (Hret h eq_refl H1 H2). split; [done|].
  destruct (Hshape Hret) as (l & evs & kw & Hsetup & _ & Hcalls).
  rewrite (new_calls_app _ _ _ Hcalls), canvas_draws_app.
  rewrite (setup_no_canvas_draws _ Hsetup).
  by destruct (truthy dd).
Qed.

(** C10. On an integer handle and keyword options that name none of the
    function's own parameters, both reference-line forwarders return, and
    they treat [delay_draw] in opposite ways: [plot_axvline] asks the canvas
    to draw once exactly when [delay_draw] is false, [plot_axhline] exactly
    when it is true.  With the default [delay_draw=False], [plot_axhline]
    never asks the canvas to draw. *)
Theorem C10_delay_draw_disagreement
    (h : Z) (c lo hi sz dd : pyval) (kws : kwargs) (s : state) :
  catch_all ["y"; "xmin"; "xmax"; "win"; "size"; "delay_draw"] kws ->
  catch_all ["x"; "ymin"; "ymax"; "win"; "size"; "delay_draw"] kws ->
  let v := plot_axvline c lo hi (VInt h) sz dd kws s in
  let hl := plot_axhline c lo hi (VInt h) sz dd kws s in
  let hl0 := plot_axhline c lo hi (VInt h) sz (VBool false) kws s in
  v.1 = Ret tt /\ hl.1 = Ret tt /\ hl0.1 = Ret tt /\
  canvas_draws (new_calls s v.2) = (if truthy dd then 0 else 1)%nat /\
  canvas_draws (new_calls s hl.2) = (if truthy dd then 1 else 0)%nat /\
  canvas_draws (new_calls s hl0.2) = 0%nat.
Proof.
  intros Hh Hv v hl hl0.
  assert (kws !! "xmin" = None /\ kws !! "xmax" = None) as [Hx1 Hx2]
    by (split; apply (catch_all_lookup _ _ _ Hh); set_solver).
  assert (kws !! "ymin" = None /\ kws !! "ymax" = None) as [Hy1 Hy2]
    by (split; apply (catch_all_lookup _ _ _ Hv); set_solver).
  destruct (plot_axvline_draws h c lo hi sz dd kws s Hy1 Hy2) as [? ?].
  destruct (plot_axhline_draws h c lo hi sz dd kws s Hx1 Hx2) as [? ?].
  destruct (plot_axhline_draws h c lo hi sz (VBool false) kws s Hx1 Hx2)
    as [? ?].
  auto 10.
Qed.

(** The theorem at work: a red line on window 1 of a fresh module. *)
Lemma C10_witness :
  let s := initial_state None documented_themes in
  let kws : kwargs := <["color" := VStr "red"]> ∅ in
  let v := plot_axvline (VInt 3) (VInt 0) (VInt 1) (VInt 1) VNone (VBool false)
             kws s in
  let hl := plot_axhline (VInt 3) (VInt 0) (VInt 1) (VInt 1) VNone (VBool false)
              kws s in
  v.1 = Ret tt /\ hl.1 = Ret tt /\ hl.1 = Ret tt /\
  canvas_draws (new_calls s v.2) = 1%nat /\
  canvas_draws (new_calls s hl.2) = 0%nat /\
  canvas_draws (new_calls s hl.2) = 0%nat.
Proof.
  apply (C10_delay_draw_disagreement 1 (VInt 3) (VInt 0) (VInt 1) VNone
           (VBool false) (<["color" := VStr "red"]> ∅)
           (initial_state None documented_themes));
    unfold catch_all; repeat constructor.
Defined.

(** ** Keyword options on their way to the drawing surface *)

Lemma draws_tail (s s1 s' : state) (evs tail : list event) :
  calls s1 = calls s ++ evs -> forallb is_setup evs = true ->
  calls s' = calls s1 ++ tail ->
  draws (new_calls s s') = draws tail.
Proof.
  intros H1 Hsetup H2. rewrite H1, <- app_assoc in H2.
  rewrite (new_calls_app _ _ _ H2), draws_app.
  by rewrite (setup_no_draws _ Hsetup).
Qed.

(** After the factory: the drawing call found in the calls made since. *)
Ltac delegated Hc Hsetup :=
  etransitivity;
  [eapply (draws_tail _ _ _ _ _ Hc Hsetup);
   cbn [calls]; rewrite <- ?app_assoc; reflexivity
  |reflexivity].

Lemma plot_passes (x y win new sz wt th : pyval) (kws : kwargs) (s : state) :
  wp (plot x y win new sz wt th kws)
    (fun o s' =>
       forall l, o = Ret l ->
         exists t, draws (new_calls s s') = [Call l t [x; y] kws]) s.
Proof.
  unfold plot. wp_step.
  eapply wp_wand; [apply get_plot_window_setup|].
  intros o s1 (evs & Hc & Hsetup). destruct o as [l|e]; [|done].
  repeat wp_step; intros ? [= <-]; eexists; delegated Hc Hsetup.
Qed.

(** A forwarder that unpacks its options into the drawing call, next to
    keywords of its own. *)
Lemma passes_unpacked (o : op) (kws kw : kwargs) (s s' : state)
    (l : loc) (t : string) (args : list pyval)
    (explicit : list (string * pyval)) :
  forced o = [] -> is_refline o = false ->
  draws (new_calls s s') = [Call l t args kw] ->
  call_kw explicit kws = Ret kw ->
  passes o kws s s'.
Proof.
  intros Hf Hr Hd Hkw. exists l, t, args, kw. split; [done|]. split.
  - intros k v Hk. right; right. by eapply call_kw_passes.
  - rewrite Hf, Hr. split; [|done]. intros k v H. by apply elem_of_nil in H.
Qed.

(** A reference-line forwarder: the same, after the default label. *)
Lemma passes_refline (o : op) (kws kw : kwargs) (s s' : state)
    (l : loc) (t : string) (args : list pyval)
    (explicit : list (string * pyval)) :
  forced o = [] ->
  draws (new_calls s s') = [Call l t args kw] ->
  call_kw explicit
    (if bool_decide (kws !! "label" = None)
     then <["label" := VStr "_nolegend_"]> kws else kws) = Ret kw ->
  passes o kws s s'.
Proof.
  intros Hf Hd Hkw. exists l, t, args, kw. split; [done|].
  rewrite Hf. split; [|split].
  - intros k v Hk. right; right. eapply call_kw_passes; [exact Hkw|].
    case_bool_decide as Hlab; [|done].
    rewrite lookup_insert_ne; [done|]. intros <-. congruence.
  - intros k v H. by apply elem_of_nil in H.
  - intros _. eapply call_kw_passes; [exact Hkw|].
    case_bool_decide as Hlab.
    + by rewrite Hlab, lookup_insert_eq.
    + by destruct (kws !! "label").
Qed.

Lemma update_trace_passes (x y trace win : pyval) (kws : kwargs) (s : state) :
  wp (update_trace x y trace win kws)
    (fun o s' => o = Ret tt ->
                 passes (Update_trace x y trace win kws) kws s s') s.
Proof.
  unfold update_trace. wp_step.
  eapply wp_wand; [apply get_plot_window_setup|].
  intros o s1 (evs & Hc & Hsetup). destruct o as [l|e]; [|done].
  repeat wp_step; try done. intros _.
  eapply passes_unpacked; [done|done| |eassumption].
  delegated Hc Hsetup.
Qed.

Lemma plot_text_passes (text x y win rotation ha va side sz : pyval)
    (kws : kwargs) (s : state) :
  wp (plot_text text x y win rotation ha va side sz kws)
    (fun o s' =>
       o = Ret tt ->
       passes (Plot_text text x y win rotation ha va side sz kws) kws s s') s.
Proof.
  unfold plot_text. wp_step.
  eapply wp_wand; [apply get_plot_window_setup|].
  intros o s1 (evs & Hc & Hsetup). destruct o as [l|e]; [|done].
  repeat wp_step; try done. intros _.
  eapply passes_unpacked; [done|done| |eassumption].
  delegated Hc Hsetup.
Qed.

Lemma plot_arrow_passes
    (x1 y1 x2 y2 win side shape color width head_width head_length sz : pyval)
    (kws : kwargs) (s : state) :
  wp (plot_arrow x1 y1 x2 y2 win side shape color width head_width
        head_length sz kws)
    (fun o s' =>
       o = Ret tt ->
       passes (Plot_arrow x1 y1 x2 y2 win side shape color width head_width
                 head_length sz kws) kws s s') s.
Proof.
  unfold plot_arrow. wp_step.
  eapply wp_wand; [apply get_plot_window_setup|].
  intros o s1 (evs & Hc & Hsetup). destruct o as [l|e]; [|done].
  repeat wp_step; try done. intros _.
  eapply passes_unpacked; [done|done| |eassumption].
  delegated Hc Hsetup.
Qed.

Lemma plot_marker_passes (x y marker size color label win : pyval)
    (kws : kwargs) (s : state) :
  wp (plot_marker x y marker size color label win kws)
    (fun o s' =>
       o = Ret tt ->
       passes (Plot_marker x y marker size color label win kws) kws s s') s.
Proof.
  unfold plot_marker. wp_step.
  eapply wp_wand; [apply get_plot_window_setup|].
  intros o s1 (evs & Hc & Hsetup). destruct o as [l|e]; [|done].
  repeat wp_step; try done. intros _.
  eapply passes_unpacked; [done|done| |eassumption].
  delegated Hc Hsetup.
Qed.

Lemma hist_passes (x bins win new sz force_draw title : pyval)
    (args : list pyval) (kws : kwargs) (s : state) :
  wp (hist x bins win new sz force_draw title args kws)
    (fun o s' =>
       forall out, o = Ret out ->
       passes (Hist x bins win new sz force_draw title args kws) kws s s') s.
Proof.
  unfold hist. wp_step.
  eapply wp_wand; [apply get_plot_window_setup|].
  intros o s1 (evs & Hc & Hsetup). destruct o as [l|e]; [|done].
  repeat wp_step; try done.
  all: intros out _.
  all: eapply passes_unpacked; [done|done| |eassumption].
  all: delegated Hc Hsetup.
Qed.

Lemma imshow_passes (map x y colormap win wt sz : pyval) (kws : kwargs)
    (s : state) :
  wp (imshow map x y colormap win wt sz kws)
    (fun o s' =>
       forall img, o = Ret img ->
       exists l kw,
         draws (new_calls s s') = [Call l "display" [map] kw] /\
         call_kw [("x", x); ("y", y); ("colormap", colormap)] kws = Ret kw) s.
Proof.
  unfold imshow. wp_step.
  eapply wp_wand; [apply get_image_window_setup|].
  intros o s1 (evs & Hc & Hsetup). destruct o as [l|e]; [|done].
  repeat wp_step; try done. intros img _.
  eexists _, _. split; [|reflexivity]. delegated Hc Hsetup.
Qed.

Lemma plot_axhline_passes (y xmin xmax win sz dd : pyval) (kws : kwargs)
    (s : state) :
  wp (plot_axhline y xmin xmax win sz dd kws)
    (fun o s' =>
       o = Ret tt ->
       passes (Plot_axhline y xmin xmax win sz dd kws) kws s s') s.
Proof.
  eapply wp_wand; [apply plot_axhline_spec|].
  intros o s' [Hshape _] Ho.
  destruct (Hshape Ho) as (l & evs & kw & Hsetup & Hkw & Hcalls).
  eapply passes_refline; [done| |exact Hkw].
  rewrite (new_calls_app _ _ _ Hcalls), draws_app.
  rewrite (setup_no_draws _ Hsetup). by destruct (truthy dd).
Qed.

Lemma plot_axvline_passes (x ymin ymax win sz dd : pyval) (kws : kwargs)
    (s : state) :
  wp (plot_axvline x ymin ymax win sz dd kws)
    (fun o s' =>
       o = Ret tt ->
       passes (Plot_axvline x ymin ymax win sz dd kws) kws s s') s.
Proof.
  eapply wp_wand; [apply plot_axvline_spec|].
  intros o s' [Hshape _] Ho.
  destruct (Hshape Ho) as (l & evs & kw & Hsetup & Hkw & Hcalls).
  eapply passes_refline; [done| |exact Hkw].
  rewrite (new_calls_app _ _ _ Hcalls), draws_app.
  rewrite (setup_no_draws _ Hsetup). by destruct (truthy dd).
Qed.

Lemma newplot_passes (x y win wt : pyval) (kws : kwargs) (s : state) :
  wp (newplot x y win wt kws)
    (fun o s' =>
       forall l, o = Ret l -> passes (Newplot x y win wt kws) kws s s') s.
Proof.
  unfold newplot, plot_kw. cbv zeta.
  wp_step. wp_step. wp_step; [|done]. rename a into kw1.
  wp_step. wp_step. wp_step; [|done].
  eapply wp_wand; [apply plot_passes|].
  intros o s' H l ->. destruct (H l eq_refl) as [t Hd].
  eexists l, t, _, _. split; [exact Hd|].
  pose proof (call_kw_inv _ _ _ Heqo) as [_ Hfree].
  split; [|split; [|done]].
  - intros k v Hk.
    destruct (decide (k ∈ ["new"; "size"; "theme"])) as [|Hnb]; [by left|].
    right; right.
    assert (k ≠ "win").
    { intros ->. specialize (Hfree "win" win (or_introl eq_refl)).
      rewrite lookup_insert_ne in Hfree by discriminate. congruence. }
    assert (k ≠ "wintitle").
    { intros ->.
      specialize (Hfree "wintitle" wt (or_intror (or_introl eq_refl))).
      rewrite lookup_insert_ne in Hfree by discriminate. congruence. }
    rewrite lookup_without by set_solver.
    eapply call_kw_passes; [exact Heqo|].
    rewrite lookup_insert_ne; [done|]. set_solver.
  - intros k v Hin. by apply elem_of_nil in Hin.
Qed.

Lemma contour_passes (map x y : pyval) (kws : kwargs) (s : state) :
  wp (contour map x y kws)
    (fun o s' => o = Ret tt -> passes (Contour map x y kws) kws s s') s.
Proof.
  unfold contour, imshow_kw. cbv zeta.
  wp_step. wp_step. wp_step; [|done]. rename a into kw1.
  wp_step. wp_step. wp_step. wp_step; [|done].
  eapply wp_wand; [apply imshow_passes|].
  intros o s' H. destruct o as [img|e]; [|done].
  destruct (H img eq_refl) as (l & kw & Hd & Hkw).
  wp_step. intros _.
  exists l, "display", [map], kw. split; [exact Hd|].
  pose proof (call_kw_inv _ _ _ Heqo) as [_ Hfree].
  assert (Hstyle : kw !! "style" = Some (VStr "contour")).
  { eapply call_kw_passes; [exact Hkw|].
    rewrite lookup_without
      by (apply (bool_decide_eq_false_1 _); vm_compute; reflexivity).
    eapply call_kw_passes; [exact Heqo|]. apply lookup_insert_eq. }
  split; [|split; [|done]].
  - intros k v Hk.
    destruct (decide (k ∈ ["win"; "wintitle"; "size"])) as [|Hnb];
      [by left|].
    destruct (decide (k = "style")) as [->|Hns];
      [right; left; set_solver|].
    right; right.
    assert (Hk1 : kw1 !! k = Some v).
    { eapply call_kw_passes; [exact Heqo|]. by rewrite lookup_insert_ne. }
    assert (k ≠ "x").
    { intros ->. specialize (Hfree "x" x (or_introl eq_refl)).
      rewrite lookup_insert_ne in Hfree by discriminate. congruence. }
    assert (k ≠ "y").
    { intros ->. specialize (Hfree "y" y (or_intror (or_introl eq_refl))).
      rewrite lookup_insert_ne in Hfree by discriminate. congruence. }
    destruct (decide (k = "colormap")) as [->|Hnc].
    + apply call_kw_inv in Hkw as [-> _].
      apply lookup_union_Some_raw. left.
      unfold list_to_map, kwarg. cbn [foldr uncurry fst snd].
      rewrite Hk1.
      by rewrite !lookup_insert_ne, lookup_insert_eq by discriminate.
    + eapply call_kw_passes; [exact Hkw|].
      rewrite lookup_without by set_solver. done.
  - intros k v Hin. apply list_elem_of_singleton in Hin as [= -> ->]. done.
Qed.

Lemma void_Ret {A} (m : M A) (s : state) :
  (void m s).1 = Ret tt -> exists a, (m s).1 = Ret a.
Proof.
  unfold void, bind, ret. destruct (m s) as [[a|e] s']; [eauto|done].
Qed.

Lemma void_state {A} (m : M A) (s : state) : (void m s).2 = (m s).2.
Proof. unfold void, bind, ret. by destruct (m s) as [[a|e] s']. Qed.

(** C7, as the claim states it, fails.  [contour] called with
    [style='solid'] hands [style='contour'] to the drawing call: it
    overwrites a keyword the caller supplied.  [plot_axhline] called without
    options hands over a [label] the caller never gave. *)
Lemma C7_counterexample :
  let s := initial_state None documented_themes in
  let kws : kwargs := <["style" := VStr "solid"]> ∅ in
  let r := contour (VList [VList [VInt 0]]) VNone VNone kws s in
  let r' := plot_axhline (VInt 2) (VInt 0) (VInt 1) (VInt 1) VNone
              (VBool false) ∅ s in
  (r.1 = Ret tt /\
   exists l kw,
     draws (new_calls s r.2) = [Call l "display" [VList [VList [VInt 0]]] kw] /\
     kws !! "style" = Some (VStr "solid") /\
     kw !! "style" = Some (VStr "contour")) /\
  (r'.1 = Ret tt /\
   exists l kw,
     draws (new_calls s r'.2) = [Call l "panel.axes.axhline" [VInt 2] kw] /\
     kw !! "label" = Some (VStr "_nolegend_")).
Proof.
  cbv zeta. split; (split; [reflexivity|]); eexists _, _;
    (split; [vm_compute; reflexivity|]); done.
Qed.

(** C7, amended. A drawing forwarder that returns has delegated exactly
    one drawing call, and every keyword option it received reached that
    call with the caller's value, with two exceptions: [contour] passes
    [style='contour'] whatever the caller gave, and the options of
    [newplot] and [contour] that name a parameter of [plot] ([new], [size],
    [theme]) or of [imshow] ([win], [wintitle], [size]) are bound to that
    parameter.  [plot_axhline] and [plot_axvline] pass the caller's [label]
    and supply ['_nolegend_'] only when the caller gave none. *)
Theorem C7_options_passed (o : op) (kws : kwargs) (s : state) :
  forwarded_kws o = Some kws ->
  (exec_op o s).1 = Ret tt ->
  passes o kws s (exec_op o s).2.
Proof.
  destruct o; intros [= ->]; cbn [exec_op]; intros Hret.
  - (* plot *)
    rewrite void_state. apply void_Ret in Hret as [l Hl].
    destruct (plot_passes x y win new size wintitle theme kws s l Hl)
      as [t Hd].
    exists l, t, [x; y], kws. split; [done|]. split; [auto|].
    split; [|done]. intros k v H. by apply elem_of_nil in H.
  - by apply update_trace_passes.
  - rewrite void_state. apply void_Ret in Hret as [l Hl].
    by eapply newplot_passes.
  - by apply plot_text_passes.
  - by apply plot_arrow_passes.
  - by apply plot_marker_passes.
  - by apply plot_axhline_passes.
  - by apply plot_axvline_passes.
  - rewrite void_state. apply void_Ret in Hret as [out Hout].
    by eapply hist_passes.
  - rewrite void_state. apply void_Ret in Hret as [img Himg].
    destruct (imshow_passes map x y colormap win wintitle size kws s img Himg)
      as (l & kw & Hd & Hkw).
    by eapply passes_unpacked.
  - by apply contour_passes.
Qed.

(** The theorem at work: [contour] with a style and a colormap. *)
Lemma C7_witness :
  let s := initial_state None documented_themes in
  let kws : kwargs :=
    <["style" := VStr "solid"]> (<["colormap" := VStr "gray"]> ∅) in
  passes (Contour (VList [VList [VInt 0]]) VNone VNone kws) kws s
    (exec_op (Contour (VList [VList [VInt 0]]) VNone VNone kws) s).2.
Proof.
  cbv zeta. apply C7_options_passed; reflexivity.
Defined.

(** ** What every operation keeps

    A relation that is reflexive and transitive, and that the primitive
    updates used by the functions below respect, holds between the states
    before and after each of them.  The two callbacks are left to each
    relation: [onExit] deletes a registry entry and [onCursor] rewrites a
    display. *)

Create HintDb keeps.

Section Keeps.
Variable R : state -> state -> Prop.
Hypothesis R_refl : forall s, R s s.
Hypothesis R_trans : forall s1 s2 s3, R s1 s2 -> R s2 s3 -> R s1 s3.
Hypothesis R_emit : forall e, is_WxApp e = false -> keeps R (emit e).
Hypothesis R_theme : forall t, keeps R (set_DEFAULT_THEME t).
Hypothesis R_new_display :
  forall c w,
    keeps R (set_objects (fun os =>
               os ++ [{| cls := c; window := w; cursor_hist := [] |}])).
Hypothesis R_register_plot :
  forall k l, keeps R (set_PLOT_DISPLAYS <[k := l]>).
Hypothesis R_register_img :
  forall k l, keeps R (set_IMG_DISPLAYS <[k := l]>).
Hypothesis R_get_wxapp : forall r c, keeps R (get_wxapp r c).

Lemma keeps_ret {A} (a : A) : keeps R (ret a).
Proof. intros s. apply R_refl. Qed.

Lemma keeps_raise {A} (e : exn) : keeps R (raise (A := A) e).
Proof. intros s. apply R_refl. Qed.

Lemma keeps_lift {A} (o : outcome A) : keeps R (lift o).
Proof. intros s. apply R_refl. Qed.

Lemma keeps_get {A} (f : state -> A) : keeps R (get f).
Proof. intros s. apply R_refl. Qed.

Lemma keeps_bind {A B} (m : M A) (k : A -> M B) :
  keeps R m -> (forall a, keeps R (k a)) -> keeps R (bind m k).
Proof.
  intros Hm Hk s. specialize (Hm s). unfold bind.
  destruct (m s) as [[a|e] s']; cbn [snd] in *; [|done].
  eapply R_trans; [exact Hm|apply Hk].
Qed.

Ltac keeps_step :=
  lazymatch goal with
  | |- keeps _ (bind _ _) => apply keeps_bind; [|intros ?]
  | |- keeps _ (ret _) => apply keeps_ret
  | |- keeps _ (raise _) => apply keeps_raise
  | |- keeps _ (lift _) => apply keeps_lift
  | |- keeps _ (get _) => apply keeps_get
  | |- keeps _ (emit _) => apply R_emit; reflexivity
  | |- keeps _ (set_DEFAULT_THEME _) => apply R_theme
  | |- keeps _ (set_objects _) => apply R_new_display
  | |- keeps _ (set_PLOT_DISPLAYS _) => apply R_register_plot
  | |- keeps _ (set_IMG_DISPLAYS _) => apply R_register_img
  | |- keeps _ (get_wxapp _ _) => apply R_get_wxapp
  | |- keeps _ (when _ _) => unfold when
  | |- keeps _ (void _) => unfold void
  | |- keeps _ (let _ := _ in _) => cbv zeta
  | |- keeps _ (if ?b then _ else _) => destruct b
  | |- keeps _ (match ?x with _ => _ end) => destruct x
  | |- keeps _ _ => solve [auto with keeps]
  end.

Lemma PlotDisplay_init_keeps w sz th wt kws :
  keeps R (PlotDisplay_init w sz th wt kws).
Proof. unfold PlotDisplay_init. repeat keeps_step. Qed.

Lemma ImageDisplay_init_keeps w sz th wt kws :
  keeps R (ImageDisplay_init w sz th wt kws).
Proof. unfold ImageDisplay_init. repeat keeps_step. Qed.

#[local] Hint Resolve PlotDisplay_init_keeps ImageDisplay_init_keeps : keeps.

Lemma get_plot_window_keeps win sz wt th :
  keeps R (get_plot_window win sz wt th).
Proof. unfold get_plot_window. repeat keeps_step. Qed.

Lemma get_image_window_keeps win sz wt :
  keeps R (get_image_window win sz wt).
Proof. unfold get_image_window. repeat keeps_step. Qed.

#[local] Hint Resolve get_plot_window_keeps get_image_window_keeps : keeps.

Lemma plot_keeps x y win new sz wt th kws :
  keeps R (plot x y win new sz wt th kws).
Proof. unfold plot. repeat keeps_step. Qed.

Lemma imshow_keeps map x y cm win wt sz kws :
  keeps R (imshow map x y cm win wt sz kws).
Proof. unfold imshow. repeat keeps_step. Qed.

#[local] Hint Resolve plot_keeps imshow_keeps : keeps.

Lemma plot_kw_keeps x y kw : keeps R (plot_kw x y kw).
Proof. unfold plot_kw. repeat keeps_step. Qed.

Lemma imshow_kw_keeps map kw : keeps R (imshow_kw map kw).
Proof. unfold imshow_kw. repeat keeps_step. Qed.

#[local] Hint Resolve plot_kw_keeps imshow_kw_keeps : keeps.

(** Every operation but the two callbacks. *)
Lemma exec_op_keeps (o : op) :
  is_OnExit o = false -> is_OnCursor o = false -> keeps R (exec_op o).
Proof.
  destruct o; try discriminate; intros _ _; cbn [exec_op];
    unfold __wxmainloop__, set_theme, available_themes, update_trace,
      plot_setlimits, newplot, plot_text, plot_arrow, plot_marker,
      plot_axhline, plot_axvline, hist, contour;
    repeat keeps_step.
Qed.

(** A session of operations that each keep [R]. *)
Lemma exec_keeps (allowed : op -> Prop) (ops : list op) :
  (forall o, allowed o -> keeps R (exec_op o)) ->
  Forall allowed ops -> forall s, R s (exec ops s).
Proof.
  intros Hop Hall. unfold exec.
  induction Hall as [|o ops Ho _ IH]; intros s; cbn [foldl]; [done|].
  eapply R_trans; [apply (Hop o Ho)|apply IH].
Qed.
End Keeps.

(** ** The callbacks *)

Lemma cursor_push_bounded (e : cursor_entry) (hist : list cursor_entry) :
  let hist' := e :: hist in
  let hist'' :=
    if Nat.ltb MAX_CURSHIST (List.length hist') then take MAX_CURSHIST hist'
    else hist' in
  hist'' !! 0%nat = Some e /\ (List.length hist'' <= MAX_CURSHIST)%nat.
Proof.
  cbv zeta. destruct (Nat.ltb_spec MAX_CURSHIST (List.length (e :: hist))).
  - split; [reflexivity|]. rewrite length_take. lia.
  - split; [reflexivity|lia].
Qed.

(** What [onCursor] records for a display of class [c]. *)
Lemma onCursor_spec (self : loc) (kw : kwargs) (now : timestamp)
    (s : state) (d : display) :
  objects s !! self = Some d ->
  exists d',
    onCursor self kw now s =
      (Ret tt,
       {| wx_GetApp := wx_GetApp s; Themes := Themes s; wxapp := wxapp s;
          DEFAULT_THEME := DEFAULT_THEME s; IMG_DISPLAYS := IMG_DISPLAYS s;
          PLOT_DISPLAYS := PLOT_DISPLAYS s;
          objects := <[self := d']> (objects s); calls := calls s |}) /\
    cls d' = cls d /\ window d' = window d /\
    cursor_hist d' !! 0%nat =
      Some (match cls d with
            | PlotDisplay => [kwarg "x" VNone kw; kwarg "y" VNone kw]
            | ImageDisplay =>
                [kwarg "x" VNone kw; kwarg "y" VNone kw;
                 kwarg "ix" VNone kw; kwarg "iy" VNone kw]
            end, now) /\
    (List.length (cursor_hist d') <= MAX_CURSHIST)%nat.
Proof.
  intros Hd.
  unfold onCursor, PlotDisplay_onCursor, ImageDisplay_onCursor,
    bind, getobj, set_objects.
  rewrite Hd. destruct (cls d) eqn:Hc; rewrite Hd; cbv zeta.
  - eexists. split; [reflexivity|]. cbn [cls window cursor_hist].
    split; [done|]. split; [done|]. apply cursor_push_bounded.
  - eexists. split; [reflexivity|]. cbn [cls window cursor_hist].
    split; [done|]. split; [done|]. apply cursor_push_bounded.
Qed.

(** On a reference that holds no display the callback fails and changes
    nothing. *)
Lemma onCursor_missing (self : loc) (kw : kwargs) (now : timestamp)
    (s : state) :
  objects s !! self = None ->
  onCursor self kw now s = (Raise AttributeError, s).
Proof. intros Hd. unfold onCursor, bind, getobj. by rewrite Hd. Qed.

(** What [onExit] does to a display of either class. *)
Lemma onExit_spec (self : loc) (o : pyval) (kw : kwargs) (s : state)
    (d : display) :
  objects s !! self = Some d ->
  exists s',
    onExit self o kw s = (Ret tt, s') /\
    objects s' = objects s /\ wxapp s' = wxapp s /\
    wx_GetApp s' = wx_GetApp s /\ Themes s' = Themes s /\
    DEFAULT_THEME s' = DEFAULT_THEME s /\
    calls s' = calls s ++ [Call self "Destroy" [] ∅] /\
    match cls d with
    | PlotDisplay =>
        PLOT_DISPLAYS s' = delete (window d) (PLOT_DISPLAYS s) /\
        IMG_DISPLAYS s' = IMG_DISPLAYS s
    | ImageDisplay =>
        IMG_DISPLAYS s' = delete (window d) (IMG_DISPLAYS s) /\
        PLOT_DISPLAYS s' = PLOT_DISPLAYS s
    end.
Proof.
  intros Hd.
  unfold onExit, PlotDisplay_onExit, ImageDisplay_onExit, bind, getobj, get,
    when, emit, set_PLOT_DISPLAYS, set_IMG_DISPLAYS, ret.
  rewrite Hd. destruct (cls d) eqn:Hc; rewrite Hd; cbn.
  - case_bool_decide as Hin; cbn; eexists; (split; [reflexivity|]); cbn;
      repeat split; try done.
    symmetry. apply delete_id.
    by apply eq_None_not_Some.
  - case_bool_decide as Hin; cbn; eexists; (split; [reflexivity|]); cbn;
      repeat split; try done.
    symmetry. apply delete_id.
    by apply eq_None_not_Some.
Qed.

Lemma onExit_missing (self : loc) (o : pyval) (kw : kwargs) (s : state) :
  objects s !! self = None ->
  onExit self o kw s = (Raise AttributeError, s).
Proof. intros Hd. unfold onExit, bind, getobj. by rewrite Hd. Qed.

Lemma get_wxapp_frame (r c : pyval) (s : state) :
  PLOT_DISPLAYS (get_wxapp r c s).2 = PLOT_DISPLAYS s /\
  IMG_DISPLAYS (get_wxapp r c s).2 = IMG_DISPLAYS s /\
  objects (get_wxapp r c s).2 = objects s.
Proof.
  unfold get_wxapp, bind, get, ret, set_wxapp, emit.
  by destruct (wxapp s), (wx_GetApp s).
Qed.

(** ** Registry entries are deleted by [onExit] only *)

Lemma registries_grow_same (s s' : state) :
  PLOT_DISPLAYS s' = PLOT_DISPLAYS s -> IMG_DISPLAYS s' = IMG_DISPLAYS s ->
  registries_grow s s'.
Proof. intros H1 H2. unfold registries_grow. by rewrite H1, H2. Qed.

Lemma registries_grow_trans (s1 s2 s3 : state) :
  registries_grow s1 s2 -> registries_grow s2 s3 -> registries_grow s1 s3.
Proof. intros [H1 H2] [H3 H4]. split; auto. Qed.

Lemma is_Some_insert_keep (m : gmap Z loc) (k j : Z) (l : loc) :
  is_Some (m !! j) -> is_Some (<[k := l]> m !! j).
Proof.
  intros H. destruct (decide (k = j)) as [->|Hne].
  - rewrite lookup_insert_eq. eauto.
  - by rewrite lookup_insert_ne.
Qed.

Lemma registries_grow_op (o : op) :
  is_OnExit o = false -> keeps registries_grow (exec_op o).
Proof.
  intros Hexit. destruct (is_OnCursor o) eqn:Hcur.
  - destruct o; try discriminate. intros s. cbn [exec_op].
    destruct (objects s !! self) as [d|] eqn:Hd.
    + destruct (onCursor_spec self kw now s d Hd) as (d' & -> & _).
      by apply registries_grow_same.
    + rewrite (onCursor_missing _ _ _ _ Hd). by apply registries_grow_same.
  - apply exec_op_keeps; [| | | | | | | |exact Hexit|exact Hcur].
    + intros s. by apply registries_grow_same.
    + apply registries_grow_trans.
    + intros e _ s. by apply registries_grow_same.
    + intros t s. by apply registries_grow_same.
    + intros c w s. by apply registries_grow_same.
    + intros k l s. split; cbn; [intros j; apply is_Some_insert_keep|done].
    + intros k l s. split; cbn; [done|intros j; apply is_Some_insert_keep].
    + intros r c s. destruct (get_wxapp_frame r c s) as (? & ? & _).
      by apply registries_grow_same.
Qed.

(** C6. Closing a display through its exit callback returns and leaves its
    handle out of the registry of its class; resolving that handle next
    constructs a display that was not in the store before, and registers
    it.  No other operation of the module deletes a registry entry:
    whatever was registered before an operation that is not an exit callback
    is registered after it. *)
Theorem C6_exit_removes_handle :
  (forall (s : state) (self : loc) (d : display) (o : pyval) (kw : kwargs)
          (h : Z) (sz wt th : pyval),
     objects s !! self = Some d ->
     Z.max 1 (Z.min 100 (Z.abs h)) = window d ->
     exists s1 s2,
       onExit self o kw s = (Ret tt, s1) /\
       objects s1 = objects s /\
       match cls d with
       | PlotDisplay =>
           PLOT_DISPLAYS s1 !! window d = None /\
           get_plot_window (VInt h) sz wt th s1 =
             (Ret (List.length (objects s)), s2) /\
           PLOT_DISPLAYS s2 !! window d = Some (List.length (objects s))
       | ImageDisplay =>
           IMG_DISPLAYS s1 !! window d = None /\
           get_image_window (VInt h) sz wt s1 =
             (Ret (List.length (objects s)), s2) /\
           IMG_DISPLAYS s2 !! window d = Some (List.length (objects s))
       end /\
       objects s2 =
         objects s ++
         [{| cls := cls d; window := window d; cursor_hist := [] |}] /\
       objects s !! List.length (objects s) = None) /\
  (forall (o : op) (s : state),
     is_OnExit o = false -> registries_grow s (exec_op o s).2).
Proof.
  split; [|intros o s Ho; by apply registries_grow_op].
  intros s self d o kw h sz wt th Hd Hh.
  change 100 with MAX_WINDOWS in Hh.
  destruct (onExit_spec self o kw s d Hd)
    as (s1 & Hexit & Hobj & _ & _ & _ & _ & _ & Hreg).
  destruct (cls d) eqn:Hc; destruct Hreg as [Hreg _].
  - destruct (wp_elim _ _ _ (get_plot_window_spec h sz wt th s1))
      as (r & s2 & Hget & l & -> & Hl & _ & _ & _ & _ & Hcase).
    rewrite Hh, Hreg, lookup_delete_eq in Hcase.
    destruct Hcase as (-> & Hobj2 & _).
    rewrite Hh in Hl. rewrite Hobj in *.
    exists s1, s2. rewrite Hreg, lookup_delete_eq.
    repeat split; try done. by apply lookup_ge_None_2.
  - destruct (wp_elim _ _ _ (get_image_window_spec h sz wt s1))
      as (r & s2 & Hget & Hcase).
    rewrite Hh, Hreg, lookup_delete_eq in Hcase.
    destruct Hcase as (-> & Hobj2 & Hreg2 & _).
    rewrite Hobj in *.
    exists s1, s2. rewrite Hreg, lookup_delete_eq.
    repeat split; try done.
    + by rewrite Hreg2, lookup_insert_eq.
    + by apply lookup_ge_None_2.
Qed.

(** The theorem at work: plot window 3 is made, closed, and asked for
    again under the handle -3. *)
Lemma C6_witness :
  let s := (get_plot_window (VInt 3) VNone VNone VNone
              (initial_state None documented_themes)).2 in
  exists s1 s2,
    onExit 0%nat VNone ∅ s = (Ret tt, s1) /\
    PLOT_DISPLAYS s1 !! 3 = None /\
    get_plot_window (VInt (-3)) VNone VNone VNone s1 = (Ret 1%nat, s2) /\
    PLOT_DISPLAYS s2 !! 3 = Some 1%nat.
Proof.
  intros s.
  destruct (proj1 C6_exit_removes_handle s 0%nat
              {| cls := PlotDisplay; window := 3; cursor_hist := [] |}
              VNone ∅ (-3) VNone VNone VNone eq_refl eq_refl)
    as (s1 & s2 & H1 & _ & (H2 & H3 & H4) & _).
  exists s1, s2. auto.
Defined.

(** ** Cursor histories *)

Lemma displays_stay_same (s s' : state) :
  objects s' = objects s -> displays_stay s s'.
Proof. intros H l d. by rewrite H. Qed.

Lemma displays_stay_trans (s1 s2 s3 : state) :
  displays_stay s1 s2 -> displays_stay s2 s3 -> displays_stay s1 s3.
Proof. unfold displays_stay. auto. Qed.

Lemma displays_stay_op (o : op) :
  is_OnCursor o = false -> keeps displays_stay (exec_op o).
Proof.
  intros Hcur. destruct (is_OnExit o) eqn:Hexit.
  - destruct o; try discriminate. intros s. cbn [exec_op].
    destruct (objects s !! self) as [d|] eqn:Hd.
    + destruct (onExit_spec self o kw s d Hd) as (s' & -> & Hobj & _).
      by apply displays_stay_same.
    + rewrite (onExit_missing _ _ _ _ Hd). by apply displays_stay_same.
  - apply exec_op_keeps; [| | | | | | | |exact Hexit|exact Hcur].
    + intros s. by apply displays_stay_same.
    + apply displays_stay_trans.
    + intros e _ s. by apply displays_stay_same.
    + intros t s. by apply displays_stay_same.
    + intros c w s l d Hl. cbn. by apply lookup_app_l_Some.
    + intros k l s. by apply displays_stay_same.
    + intros k l s. by apply displays_stay_same.
    + intros r c s. destruct (get_wxapp_frame r c s) as (_ & _ & ?).
      by apply displays_stay_same.
Qed.

Lemma hist_bounded_same (s s' : state) :
  objects s' = objects s -> preserved hist_bounded s s'.
Proof. unfold preserved, hist_bounded. by intros ->. Qed.

Lemma hist_bounded_op (o : op) : keeps (preserved hist_bounded) (exec_op o).
Proof.
  destruct (is_OnExit o) eqn:Hexit; [|destruct (is_OnCursor o) eqn:Hcur].
  - destruct o; try discriminate. intros s. cbn [exec_op].
    destruct (objects s !! self) as [d|] eqn:Hd.
    + destruct (onExit_spec self o kw s d Hd) as (s' & -> & Hobj & _).
      by apply hist_bounded_same.
    + rewrite (onExit_missing _ _ _ _ Hd). by apply hist_bounded_same.
  - destruct o; try discriminate. intros s. cbn [exec_op].
    destruct (objects s !! self) as [d|] eqn:Hd.
    + destruct (onCursor_spec self kw now s d Hd)
        as (d' & -> & _ & _ & _ & Hlen).
      intros Hb. unfold hist_bounded in *. cbn. by apply Forall_insert.
    + rewrite (onCursor_missing _ _ _ _ Hd). by apply hist_bounded_same.
  - apply exec_op_keeps; [| | | | | | | |exact Hexit|exact Hcur].
    + intros s. by apply hist_bounded_same.
    + unfold preserved. auto.
    + intros e _ s. by apply hist_bounded_same.
    + intros t s. by apply hist_bounded_same.
    + intros c w s Hb. unfold hist_bounded in *. cbn.
      apply Forall_app. split; [done|].
      apply Forall_singleton. cbn. unfold MAX_CURSHIST. lia.
    + intros k l s. by apply hist_bounded_same.
    + intros k l s. by apply hist_bounded_same.
    + intros r c s. destruct (get_wxapp_frame r c s) as (_ & _ & ?).
      by apply hist_bounded_same.
Qed.

(** C4. In every state a session can reach from the freshly imported
    module, every display holds at most 100 cursor entries.  A cursor
    callback on a display returns and leaves the event it was called with,
    stamped with the time of the call, at index 0 of that display's
    history, at most 100 entries long, without touching class and handle.
    No operation other than a cursor callback changes a stored display, so
    that entry stays at index 0 until the next cursor event. *)
Theorem C4_cursor_history :
  (forall (env : option app) (themes : list string) (ops : list op),
     Forall (fun d => (List.length (cursor_hist d) <= 100)%nat)
       (objects (exec ops (initial_state env themes)))) /\
  (forall (s : state) (self : loc) (d : display) (kw : kwargs)
          (now : timestamp),
     objects s !! self = Some d ->
     exists s' d',
       onCursor self kw now s = (Ret tt, s') /\
       objects s' !! self = Some d' /\
       cls d' = cls d /\ window d' = window d /\
       cursor_hist d' !! 0%nat =
         Some (match cls d with
               | PlotDisplay => [kwarg "x" VNone kw; kwarg "y" VNone kw]
               | ImageDisplay =>
                   [kwarg "x" VNone kw; kwarg "y" VNone kw;
                    kwarg "ix" VNone kw; kwarg "iy" VNone kw]
               end, now) /\
       (List.length (cursor_hist d') <= 100)%nat) /\
  (forall (o : op) (s : state) (l : loc) (d : display),
     is_OnCursor o = false ->
     objects s !! l = Some d -> objects (exec_op o s).2 !! l = Some d).
Proof.
  split; [|split].
  - intros env themes ops.
    apply (exec_keeps (preserved hist_bounded)
             ltac:(unfold preserved; auto) ltac:(unfold preserved; auto)
             (fun _ => True) ops (fun o _ => hist_bounded_op o)).
    + by apply Forall_true.
    + apply Forall_nil_2.
  - intros s self d kw now Hd.
    destruct (onCursor_spec self kw now s d Hd)
      as (d' & Heq & Hc & Hw & Hhead & Hlen).
    eexists _, d'. split; [exact Heq|]. cbn.
    rewrite list_lookup_insert_eq by (by eapply lookup_lt_Some). auto.
  - intros o s l d Ho Hl. by apply (displays_stay_op o Ho s).
Qed.

(** The theorem at work: a cursor event on a new image window. *)
Lemma C4_witness :
  let s := (get_image_window (VInt 7) VNone VNone
              (initial_state None documented_themes)).2 in
  let kw : kwargs := <["x" := VInt 4]> (<["iy" := VInt 2]> ∅) in
  exists s' d',
    onCursor 0%nat kw 0%Q s = (Ret tt, s') /\
    objects s' !! 0%nat = Some d' /\
    cursor_hist d' !! 0%nat = Some ([VInt 4; VNone; VNone; VInt 2], 0%Q).
Proof.
  intros s kw.
  destruct (proj1 (proj2 C4_cursor_history) s 0%nat
              {| cls := ImageDisplay; window := 7; cursor_hist := [] |}
              kw 0%Q eq_refl)
    as (s' & d' & H1 & H2 & _ & _ & H3 & _).
  exists s', d'. auto.
Defined.

(** ** The application accessor *)

Lemma count_WxApp_snoc (evs : list event) (e : event) :
  count_WxApp (evs ++ [e]) =
  (count_WxApp evs + (if is_WxApp e then 1 else 0))%nat.
Proof.
  unfold count_WxApp. rewrite List.filter_app, length_app. cbn.
  by destruct (is_WxApp e).
Qed.

Lemma app_kept_same (env : option app) (s s' : state) :
  wxapp s' = wxapp s -> wx_GetApp s' = wx_GetApp s ->
  count_WxApp (calls s') = count_WxApp (calls s) ->
  app_kept env s s'.
Proof.
  intros H1 H2 H3. unfold app_kept, app_once. rewrite H1, H2, H3. auto.
Qed.

Lemma app_kept_trans (env : option app) (s1 s2 s3 : state) :
  app_kept env s1 s2 -> app_kept env s2 s3 -> app_kept env s1 s3.
Proof. intros [H1 H2] [H3 H4]. split; auto. Qed.

(** The accessor on a state where [wxapp] is bound: that application, and
    nothing changes. *)
Lemma get_wxapp_bound (r c : pyval) (s : state) (a : app) :
  wxapp s = Some a -> get_wxapp r c s = (Ret a, s).
Proof. intros H. unfold get_wxapp, bind, get, ret. by rewrite H. Qed.

(** The accessor in general: it returns [the_app env], binds [wxapp] to it
    and keeps [app_once]. *)
Lemma get_wxapp_once (env : option app) (r c : pyval) (s : state) :
  app_once env s ->
  (get_wxapp r c s).1 = Ret (the_app env) /\
  wxapp (get_wxapp r c s).2 = Some (the_app env) /\
  app_once env (get_wxapp r c s).2.
Proof.
  intros [Henv [[Hw Hn]|[Hw Hn]]].
  - unfold get_wxapp, bind, get, ret, set_wxapp, emit. rewrite Hw, Henv.
    destruct env as [a|]; cbn.
    + split; [done|]. split; [done|]. split; [done|]. right.
      split; [reflexivity|exact Hn].
    + rewrite Hn. split; [done|]. split; [done|]. split; [done|]. right.
      split; [reflexivity|]. cbn [calls].
      by rewrite count_WxApp_snoc, Hn.
  - rewrite (get_wxapp_bound r c s _ Hw). cbn.
    split; [done|]. split; [done|]. split; [done|]. right. done.
Qed.

Lemma get_wxapp_kept (env : option app) (r c : pyval) :
  keeps (app_kept env) (get_wxapp r c).
Proof.
  intros s. split.
  - intros H. by apply get_wxapp_once.
  - intros a Ha. by rewrite (get_wxapp_bound r c s a Ha).
Qed.

Lemma app_kept_op (env : option app) (o : op) :
  keeps (app_kept env) (exec_op o).
Proof.
  destruct (is_OnExit o) eqn:Hexit; [|destruct (is_OnCursor o) eqn:Hcur].
  - destruct o; try discriminate. intros s. cbn [exec_op].
    destruct (objects s !! self) as [d|] eqn:Hd.
    + destruct (onExit_spec self o kw s d Hd)
        as (s' & -> & _ & Hw & Hg & _ & _ & Hc & _).
      apply app_kept_same; try done. cbn [snd].
      by rewrite Hc, count_WxApp_snoc, Nat.add_0_r.
    + rewrite (onExit_missing _ _ _ _ Hd). by apply app_kept_same.
  - destruct o; try discriminate. intros s. cbn [exec_op].
    destruct (objects s !! self) as [d|] eqn:Hd.
    + destruct (onCursor_spec self kw now s d Hd) as (d' & -> & _).
      by apply app_kept_same.
    + rewrite (onCursor_missing _ _ _ _ Hd). by apply app_kept_same.
  - apply exec_op_keeps; [| | | | | | | |exact Hexit|exact Hcur].
    + intros s. by apply app_kept_same.
    + apply app_kept_trans.
    + intros e He s. apply app_kept_same; try done. cbn.
      by rewrite count_WxApp_snoc, He, Nat.add_0_r.
    + intros t s. by apply app_kept_same.
    + intros c w s. by apply app_kept_same.
    + intros k l s. by apply app_kept_same.
    + intros k l s. by apply app_kept_same.
    + apply get_wxapp_kept.
Qed.

Lemma app_kept_exec (env : option app) (ops : list op) (s : state) :
  app_kept env s (exec ops s).
Proof.
  apply (exec_keeps (app_kept env)
           (fun s => app_kept_same env s s eq_refl eq_refl eq_refl)
           (app_kept_trans env)
           (fun _ => True) ops (fun o _ => app_kept_op env o)).
  by apply Forall_true.
Qed.

(** C8. Take any session from the freshly imported module, in an
    environment where [env] is the running application, if any.  Any two
    calls of [get_wxapp] in it, whatever happens before, between and after
    them, return the same application, [the_app env]: the running one when
    there is one, and otherwise the one application the module constructed.
    The second call changes nothing, and over the whole session [wx.App]
    is constructed at most once: never when an application was running,
    once otherwise. *)
Theorem C8_get_wxapp_once (env : option app) (themes : list string)
    (ops1 ops2 ops3 : list op) (r1 c1 r2 c2 : pyval) :
  let s1 := exec ops1 (initial_state env themes) in
  let first := get_wxapp r1 c1 s1 in
  let s2 := exec ops2 first.2 in
  let second := get_wxapp r2 c2 s2 in
  let s3 := exec ops3 second.2 in
  first.1 = Ret (the_app env) /\
  second.1 = Ret (the_app env) /\
  second.2 = s2 /\
  count_WxApp (calls s3) =
    match env with Some _ => 0%nat | None => 1%nat end.
Proof.
  intros s1 first s2 second s3.
  assert (H0 : app_once env (initial_state env themes)).
  { split; [done|]. left. done. }
  assert (H1 : app_once env s1) by by apply (app_kept_exec env ops1).
  destruct (get_wxapp_once env r1 c1 s1 H1) as (Hr1 & Hw1 & Ho1).
  fold first in Hr1, Hw1, Ho1.
  destruct (app_kept_exec env ops2 first.2) as [Hk2 Hb2].
  fold s2 in Hk2, Hb2.
  specialize (Hk2 Ho1). specialize (Hb2 _ Hw1).
  assert (Hsecond : second = (Ret (the_app env), s2))
    by by apply get_wxapp_bound.
  rewrite Hsecond. cbn [fst snd].
  split; [done|]. split; [done|]. split; [done|].
  assert (Hs3 : s3 = exec ops3 s2) by (unfold s3; by rewrite Hsecond).
  rewrite Hs3.
  destruct (app_kept_exec env ops3 s2) as [Hk3 Hb3].
  destruct (Hk3 Hk2) as [_ [[Hn _]|[_ Hc]]]; [|exact Hc].
  by rewrite (Hb3 _ Hb2) in Hn.
Qed.

(** * Further properties of the module *)

(** ** Operations above the factory

    The forwarders, the factories and the accessor change the state only
    through [get_wxapp], [get_plot_window], [get_image_window] and the calls
    they record: a relation these respect holds across each of them. *)

Section Above.
Variable R : state -> state -> Prop.
Hypothesis R_refl : forall s, R s s.
Hypothesis R_trans : forall s1 s2 s3, R s1 s2 -> R s2 s3 -> R s1 s3.
Hypothesis R_emit : forall e, is_WxApp e = false -> keeps R (emit e).
Hypothesis R_get_wxapp : forall r c, keeps R (get_wxapp r c).
Hypothesis R_get_plot_window :
  forall win sz wt th, keeps R (get_plot_window win sz wt th).
Hypothesis R_get_image_window :
  forall win sz wt, keeps R (get_image_window win sz wt).

Ltac above_step :=
  lazymatch goal with
  | |- keeps _ (bind _ _) => apply (keeps_bind R R_trans); [|intros ?]
  | |- keeps _ (ret _) => apply (keeps_ret R R_refl)
  | |- keeps _ (raise _) => apply (keeps_raise R R_refl)
  | |- keeps _ (lift _) => apply (keeps_lift R R_refl)
  | |- keeps _ (get _) => apply (keeps_get R R_refl)
  | |- keeps _ (emit _) => apply R_emit; reflexivity
  | |- keeps _ (get_wxapp _ _) => apply R_get_wxapp
  | |- keeps _ (get_plot_window _ _ _ _) => apply R_get_plot_window
  | |- keeps _ (get_image_window _ _ _) => apply R_get_image_window
  | |- keeps _ (when _ _) => unfold when
  | |- keeps _ (void _) => unfold void
  | |- keeps _ (let _ := _ in _) => cbv zeta
  | |- keeps _ (if ?b then _ else _) => destruct b
  | |- keeps _ (match ?x with _ => _ end) => destruct x
  end.

Lemma above_factory_keeps (o : op) :
  above_factory o = true -> keeps R (exec_op o).
Proof.
  destruct o; try discriminate; intros _; cbn [exec_op];
    unfold __wxmainloop__, available_themes, plot, update_trace,
      plot_setlimits, newplot, plot_kw, plot, plot_text, plot_arrow,
      plot_marker, plot_axhline, plot_axvline, hist, imshow, contour,
      imshow_kw, imshow;
    repeat above_step.
Qed.
End Above.

(** ** The constructors and the factories, in full *)

#[local] Abbreviation clamped n := (Z.max 1 (Z.min MAX_WINDOWS n)) (only parsing).

(** A plot display made without extra keywords: what is stored, what is
    registered, what is called and in which order. *)
Lemma PlotDisplay_init_made (w : Z) (sz th wt : pyval) (s : state) :
  wp (PlotDisplay_init w sz th wt ∅)
    (fun o s' =>
       let l := List.length (objects s) in
       o = Ret l /\
       Themes s' = Themes s /\ DEFAULT_THEME s' = DEFAULT_THEME s /\
       wx_GetApp s' = wx_GetApp s /\ IMG_DISPLAYS s' = IMG_DISPLAYS s /\
       is_Some (wxapp s') /\
       (forall a, wxapp s = Some a -> wxapp s' = Some a) /\
       objects s' =
         objects s ++
         [{| cls := PlotDisplay; window := w; cursor_hist := [] |}] /\
       PLOT_DISPLAYS s' =
         (if bool_decide (PLOT_DISPLAYS s !! w = None)
          then <[w := l]> (PLOT_DISPLAYS s) else PLOT_DISPLAYS s) /\
       exists pre,
         forallb is_WxApp pre = true /\
         calls s' =
           calls s ++ pre ++
           [Init "PlotFrame" l
              (list_to_map
                 [("parent", VNone); ("size", sz);
                  ("title",
                   if is_None wt then VStr ("Plot Window " +:+ pretty w)
                   else wt);
                  ("output_title", VStr "plot");
                  ("exit_callback", VMethod l "onExit");
                  ("theme",
                   if is_None th then VStr (DEFAULT_THEME s) else th)] ∪ ∅)] ++
           (if is_None sz then [] else [Call l "SetSize" [sz] ∅]) ++
           [Call l "Show" [] ∅; Call l "Raise" [] ∅;
            SetAttr l "panel.cursor_callback" (VMethod l "onCursor");
            SetAttr l "panel.cursor_mode" (VStr "zoom")]) s.
Proof.
  unfold PlotDisplay_init, get_wxapp.
  repeat wp_step.
  all: try (rewrite call_kw_empty in *; simplify_eq).
  all: repeat wp_step.
  all: cbv zeta; repeat (split; [first [by eauto | intros; congruence]|]).
  all: try (destruct (is_None sz); [|discriminate]).
  all: try (destruct (is_None sz); [discriminate|]).
  all: cbn [negb] in *.
  all: rewrite <- ?app_assoc.
  all: first [exists []; split; reflexivity
             |eexists [_]; split; [|reflexivity]; reflexivity].
Qed.

Lemma ImageDisplay_init_made (w : Z) (sz th wt : pyval) (s : state) :
  wp (ImageDisplay_init w sz th wt ∅)
    (fun o s' =>
       let l := List.length (objects s) in
       o = Ret l /\
       Themes s' = Themes s /\ DEFAULT_THEME s' = DEFAULT_THEME s /\
       wx_GetApp s' = wx_GetApp s /\ PLOT_DISPLAYS s' = PLOT_DISPLAYS s /\
       is_Some (wxapp s') /\
       (forall a, wxapp s = Some a -> wxapp s' = Some a) /\
       objects s' =
         objects s ++
         [{| cls := ImageDisplay; window := w; cursor_hist := [] |}] /\
       IMG_DISPLAYS s' =
         (if bool_decide (IMG_DISPLAYS s !! w = None)
          then <[w := l]> (IMG_DISPLAYS s) else IMG_DISPLAYS s) /\
       exists pre,
         forallb is_WxApp pre = true /\
         calls s' =
           calls s ++ pre ++
           [Init "ImageFrame" l
              (list_to_map
                 [("parent", VNone); ("size", sz);
                  ("title",
                   if is_None wt then VStr ("Image Window " +:+ pretty w)
                   else wt);
                  ("exit_callback", VMethod l "onExit")] ∪ ∅)] ++
           (if is_None sz then [] else [Call l "SetSize" [sz] ∅]) ++
           [Call l "Show" [] ∅; Call l "Raise" [] ∅;
            SetAttr l "panel.cursor_callback" (VMethod l "onCursor")]) s.
Proof.
  unfold ImageDisplay_init, get_wxapp.
  repeat wp_step.
  all: try (rewrite call_kw_empty in *; simplify_eq).
  all: repeat wp_step.
  all: cbv zeta; repeat (split; [first [by eauto | intros; congruence]|]).
  all: try (destruct (is_None sz); [|discriminate]).
  all: try (destruct (is_None sz); [discriminate|]).
  all: cbn [negb] in *.
  all: rewrite <- ?app_assoc.
  all: first [exists []; split; reflexivity
             |eexists [_]; split; [|reflexivity]; reflexivity].
Qed.

Lemma int_abs_Raise (w : pyval) (e : exn) :
  int_abs w = Raise e -> e = TypeError.
Proof. destruct w; cbn; congruence. Qed.

Lemma call_kw_Raise (explicit : list (string * pyval)) (kws : kwargs)
    (e : exn) :
  call_kw explicit kws = Raise e -> e = TypeError.
Proof. unfold call_kw. destruct (forallb _ _); congruence. Qed.

Lemma positional_Raise (names : list string) (kw : kwargs) (e : exn) :
  positional names kw = Raise e -> e = TypeError.
Proof. unfold positional. destruct (forallb _ _); congruence. Qed.

(** The factories by cases: a handle that is no number, a registered
    handle, a free one. *)
Lemma get_plot_window_cases (win sz wt th : pyval) (s : state) :
  get_plot_window win sz wt th s =
  match int_abs win with
  | Raise e => (Raise e, s)
  | Ret n =>
      match PLOT_DISPLAYS s !! clamped n with
      | Some l => (Ret l, s)
      | None => PlotDisplay_init (clamped n) sz th wt ∅ s
      end
  end.
Proof.
  unfold get_plot_window, bind, lift, get. cbn [fst snd].
  destruct (int_abs win) as [n|e]; [|done].
  by destruct (PLOT_DISPLAYS s !! clamped n).
Qed.

Lemma get_image_window_cases (win sz wt : pyval) (s : state) :
  get_image_window win sz wt s =
  match int_abs win with
  | Raise e => (Raise e, s)
  | Ret n =>
      match IMG_DISPLAYS s !! clamped n with
      | Some l => (Raise NameError, s)
      | None => ImageDisplay_init (clamped n) sz VNone wt ∅ s
      end
  end.
Proof.
  unfold get_image_window, bind, lift, get. cbn [fst snd].
  destruct (int_abs win) as [n|e]; [|done].
  by destruct (IMG_DISPLAYS s !! clamped n).
Qed.

Lemma clamped_range (n : Z) : 1 <= clamped n <= 100.
Proof. unfold MAX_WINDOWS. lia. Qed.

(** ** The registries stay in order *)

Lemma registry_ok_more (c : display_class) (reg : gmap Z loc)
    (objs new : list display) :
  registry_ok c reg objs -> registry_ok c reg (objs ++ new).
Proof.
  intros H k l Hk. destruct (H k l Hk) as (Hr & d & Hd & Hc & Hw).
  split; [done|]. exists d. split; [|done]. by apply lookup_app_l_Some.
Qed.

Lemma registry_ok_insert (c : display_class) (reg : gmap Z loc)
    (objs : list display) (k : Z) :
  1 <= k <= 100 ->
  registry_ok c reg objs ->
  registry_ok c (<[k := List.length objs]> reg)
    (objs ++ [{| cls := c; window := k; cursor_hist := [] |}]).
Proof.
  intros Hk H j l Hj. destruct (decide (k = j)) as [<-|Hne].
  - rewrite lookup_insert_eq in Hj. injection Hj as <-.
    split; [done|]. eexists. split; [apply lookup_new|done].
  - rewrite lookup_insert_ne in Hj by done.
    by apply (registry_ok_more c reg objs).
Qed.

Lemma registry_ok_delete (c : display_class) (reg : gmap Z loc)
    (objs : list display) (k : Z) :
  registry_ok c reg objs -> registry_ok c (delete k reg) objs.
Proof.
  intros H j l Hj. apply lookup_delete_Some in Hj as [_ Hj]. by apply H.
Qed.

Lemma registry_ok_update (c : display_class) (reg : gmap Z loc)
    (objs : list display) (self : loc) (d d' : display) :
  objs !! self = Some d -> cls d' = cls d -> window d' = window d ->
  registry_ok c reg objs -> registry_ok c reg (<[self := d']> objs).
Proof.
  intros Hd Hc Hw H k l Hk. destruct (H k l Hk) as (Hr & d0 & Hd0 & Hc0 & Hw0).
  split; [done|]. destruct (decide (self = l)) as [->|Hne].
  - exists d'. rewrite list_lookup_insert_eq by (by eapply lookup_lt_Some).
    split; [done|]. simplify_eq. by rewrite Hc, Hw.
  - exists d0. by rewrite list_lookup_insert_ne.
Qed.

Lemma module_ok_same (s s' : state) :
  PLOT_DISPLAYS s' = PLOT_DISPLAYS s -> IMG_DISPLAYS s' = IMG_DISPLAYS s ->
  objects s' = objects s -> wxapp s' = wxapp s ->
  preserved module_ok s s'.
Proof. unfold preserved, module_ok. by intros -> -> -> ->. Qed.

Lemma get_wxapp_binds (r c : pyval) (s : state) :
  is_Some (wxapp (get_wxapp r c s).2).
Proof.
  unfold get_wxapp, bind, get, ret, set_wxapp, emit.
  destruct (wxapp s) eqn:E, (wx_GetApp s); cbn; rewrite ?E; eauto.
Qed.

Lemma module_ok_get_wxapp (r c : pyval) :
  keeps (preserved module_ok) (get_wxapp r c).
Proof.
  intros s (Hp & Hi & _).
  destruct (get_wxapp_frame r c s) as (Ep & Ei & Eo).
  unfold module_ok. rewrite Ep, Ei, Eo.
  split; [done|]. split; [done|]. intros _. apply get_wxapp_binds.
Qed.

Lemma module_ok_get_plot_window (win sz wt th : pyval) :
  keeps (preserved module_ok) (get_plot_window win sz wt th).
Proof.
  intros s Hok. rewrite get_plot_window_cases.
  destruct (int_abs win) as [n|e]; [|done].
  destruct (PLOT_DISPLAYS s !! clamped n) as [l|] eqn:Hk; [done|].
  pose proof (PlotDisplay_init_made (clamped n) sz th wt s) as H.
  unfold wp in H. cbv zeta in H.
  destruct H as (_ & _ & _ & _ & Ei & Hw & _ & Eo & Ep & _).
  rewrite bool_decide_eq_true_2 in Ep by done.
  destruct Hok as (Hp & Hi & _). unfold module_ok.
  rewrite Ep, Ei, Eo. split; [|split; [|done]].
  - apply registry_ok_insert; [apply clamped_range|done].
  - by apply registry_ok_more.
Qed.

Lemma module_ok_get_image_window (win sz wt : pyval) :
  keeps (preserved module_ok) (get_image_window win sz wt).
Proof.
  intros s Hok. rewrite get_image_window_cases.
  destruct (int_abs win) as [n|e]; [|done].
  destruct (IMG_DISPLAYS s !! clamped n) as [l|] eqn:Hk; [done|].
  pose proof (ImageDisplay_init_made (clamped n) sz VNone wt s) as H.
  unfold wp in H. cbv zeta in H.
  destruct H as (_ & _ & _ & _ & Ep & Hw & _ & Eo & Ei & _).
  rewrite bool_decide_eq_true_2 in Ei by done.
  destruct Hok as (Hp & Hi & _). unfold module_ok.
  rewrite Ep, Ei, Eo. split; [|split; [|done]].
  - by apply registry_ok_more.
  - apply registry_ok_insert; [apply clamped_range|done].
Qed.

(** [set_theme] by cases. *)
Lemma set_theme_cases (theme : string) (s : state) :
  set_theme theme s =
  if bool_decide (lower theme ∈ Themes s)
  then set_DEFAULT_THEME (lower theme) s
  else (Raise ValueError, s).
Proof.
  unfold set_theme, bind, get, raise. cbn [fst snd].
  by destruct (bool_decide _).
Qed.

Lemma module_ok_op (o : op) :
  is_public o = true -> keeps (preserved module_ok) (exec_op o).
Proof.
  intros Hpub. destruct (above_factory o) eqn:Habove.
  - apply above_factory_keeps; [| | | | | |exact Habove].
    + unfold preserved. auto.
    + unfold preserved. auto.
    + intros e _ s. by apply module_ok_same.
    + apply module_ok_get_wxapp.
    + apply module_ok_get_plot_window.
    + apply module_ok_get_image_window.
  - destruct o; try discriminate; intros s; cbn [exec_op].
    + rewrite set_theme_cases.
      destruct (bool_decide _); by apply module_ok_same.
    + destruct (objects s !! self) as [d|] eqn:Hd;
        [|rewrite (onExit_missing _ _ _ _ Hd); by apply module_ok_same].
      destruct (onExit_spec self o kw s d Hd)
        as (s' & -> & Eo & Ew & _ & _ & _ & _ & Hreg).
      intros (Hp & Hi & Ha). unfold module_ok. cbn [snd]. rewrite Eo, Ew.
      destruct (cls d); destruct Hreg as [-> ->];
        auto using registry_ok_delete.
    + destruct (objects s !! self) as [d|] eqn:Hd;
        [|rewrite (onCursor_missing _ _ _ _ Hd); by apply module_ok_same].
      destruct (onCursor_spec self kw now s d Hd) as (d' & -> & Hc & Hw & _).
      intros (Hp & Hi & Ha). unfold module_ok. cbn [snd PLOT_DISPLAYS
        IMG_DISPLAYS objects wxapp].
      split; [by eapply registry_ok_update|].
      split; [by eapply registry_ok_update|].
      intros _. apply Ha. intros E. by rewrite E in Hd.
Qed.

Lemma module_ok_initial (env : option app) (themes : list string) :
  module_ok (initial_state env themes).
Proof.
  split; [|split]; [intros k l Hk|intros k l Hk|done];
    cbn [initial_state PLOT_DISPLAYS IMG_DISPLAYS] in Hk;
    by rewrite lookup_empty in Hk.
Qed.

Lemma module_ok_exec (env : option app) (themes : list string)
    (ops : list op) :
  forallb is_public ops = true ->
  module_ok (exec ops (initial_state env themes)).
Proof.
  intros Hpub.
  apply (exec_keeps (preserved module_ok)
           ltac:(unfold preserved; auto) ltac:(unfold preserved; auto)
           (fun o => is_public o = true) ops module_ok_op).
  - apply Forall_forall. intros o Ho. rewrite forallb_forall in Hpub.
    apply Hpub. by apply list_elem_of_In.
  - apply module_ok_initial.
Qed.

Lemma size_keys_in_range (m : gmap Z loc) :
  (forall k, is_Some (m !! k) -> 1 <= k <= 100) -> (size m <= 100)%nat.
Proof.
  intros H. rewrite <- size_dom.
  assert (Hsub : dom m ⊆ (list_to_set (seqZ 1 100) : gset Z)).
  { intros k Hk%elem_of_dom. apply elem_of_list_to_set, elem_of_seqZ.
    specialize (H k Hk). lia. }
  apply subseteq_size in Hsub.
  rewrite size_list_to_set in Hsub by apply NoDup_seqZ.
  by rewrite length_seqZ in Hsub.
Qed.

(** X1. In a session of the public functions and the callbacks, started
    from the freshly imported module, every key of either registry lies in
    1..100, so neither registry ever holds more than 100 windows. *)
Theorem registries_bounded (env : option app) (themes : list string)
    (ops : list op) :
  forallb is_public ops = true ->
  let s := exec ops (initial_state env themes) in
  (forall k, is_Some (PLOT_DISPLAYS s !! k) -> 1 <= k <= 100) /\
  (forall k, is_Some (IMG_DISPLAYS s !! k) -> 1 <= k <= 100) /\
  (size (PLOT_DISPLAYS s) <= 100)%nat /\
  (size (IMG_DISPLAYS s) <= 100)%nat.
Proof.
  intros Hpub s.
  destruct (module_ok_exec env themes ops Hpub) as (Hp & Hi & _).
  assert (H1 : forall k, is_Some (PLOT_DISPLAYS s !! k) -> 1 <= k <= 100).
  { intros k [l Hl]. by destruct (Hp k l Hl). }
  assert (H2 : forall k, is_Some (IMG_DISPLAYS s !! k) -> 1 <= k <= 100).
  { intros k [l Hl]. by destruct (Hi k l Hl). }
  auto using size_keys_in_range.
Qed.

(** The theorem at work on [demo_session]. *)
Lemma registries_bounded_witness :
  let s := exec demo_session (initial_state None documented_themes) in
  (forall k, is_Some (PLOT_DISPLAYS s !! k) -> 1 <= k <= 100) /\
  (forall k, is_Some (IMG_DISPLAYS s !! k) -> 1 <= k <= 100) /\
  (size (PLOT_DISPLAYS s) <= 100)%nat /\
  (size (IMG_DISPLAYS s) <= 100)%nat.
Proof.
  cbv zeta.
  apply (registries_bounded None documented_themes demo_session).
  reflexivity.
Defined.

(** X2. In such a session every registry entry refers to a stored display
    of the registry's class whose [window] attribute is the key it is
    registered under.  Hence two handles never share a window, and no
    object is both a plot window and an image window. *)
Theorem registry_entries_consistent (env : option app)
    (themes : list string) (ops : list op) :
  forallb is_public ops = true ->
  let s := exec ops (initial_state env themes) in
  (forall k l, PLOT_DISPLAYS s !! k = Some l ->
     exists d, objects s !! l = Some d /\
               cls d = PlotDisplay /\ window d = k) /\
  (forall k l, IMG_DISPLAYS s !! k = Some l ->
     exists d, objects s !! l = Some d /\
               cls d = ImageDisplay /\ window d = k) /\
  (forall k k' l, PLOT_DISPLAYS s !! k = Some l ->
     PLOT_DISPLAYS s !! k' = Some l -> k = k') /\
  (forall k k' l, IMG_DISPLAYS s !! k = Some l ->
     IMG_DISPLAYS s !! k' = Some l -> k = k') /\
  (forall k k' l l', PLOT_DISPLAYS s !! k = Some l ->
     IMG_DISPLAYS s !! k' = Some l' -> l <> l').
Proof.
  intros Hpub s.
  destruct (module_ok_exec env themes ops Hpub) as (Hp & Hi & _).
  fold s in Hp, Hi.
  split; [intros k l Hl; by destruct (Hp k l Hl)|].
  split; [intros k l Hl; by destruct (Hi k l Hl)|].
  split; [|split].
  - intros k k' l H1 H2.
    destruct (Hp k l H1) as (_ & d & Hd & _ & <-).
    destruct (Hp k' l H2) as (_ & d' & Hd' & _ & <-). congruence.
  - intros k k' l H1 H2.
    destruct (Hi k l H1) as (_ & d & Hd & _ & <-).
    destruct (Hi k' l H2) as (_ & d' & Hd' & _ & <-). congruence.
  - intros k k' l l' H1 H2 <-.
    destruct (Hp k l H1) as (_ & d & Hd & Hc & _).
    destruct (Hi k' l H2) as (_ & d' & Hd' & Hc' & _). congruence.
Qed.

(** The theorem at work on [demo_session]. *)
Lemma registry_entries_consistent_witness :
  let s := exec demo_session (initial_state None documented_themes) in
  (forall k l, PLOT_DISPLAYS s !! k = Some l ->
     exists d, objects s !! l = Some d /\
               cls d = PlotDisplay /\ window d = k) /\
  (forall k k' l l', PLOT_DISPLAYS s !! k = Some l ->
     IMG_DISPLAYS s !! k' = Some l' -> l <> l').
Proof.
  cbv zeta.
  assert (Hpub : forallb is_public demo_session = true) by reflexivity.
  destruct (registry_entries_consistent None documented_themes
              demo_session Hpub) as (H1 & _ & _ & _ & H5).
  exact (conj H1 H5).
Defined.

(** X3. In such a session no display exists before the application does:
    whenever the store holds a display, [wxapp] is bound. *)
Theorem display_implies_application (env : option app)
    (themes : list string) (ops : list op) :
  forallb is_public ops = true ->
  let s := exec ops (initial_state env themes) in
  objects s <> [] -> is_Some (wxapp s).
Proof.
  intros Hpub s. by destruct (module_ok_exec env themes ops Hpub) as (_ & _ & H).
Qed.

(** The theorem at work on [demo_session]. *)
Lemma display_implies_application_witness :
  is_Some (wxapp (exec demo_session (initial_state None documented_themes))).
Proof.
  apply (display_implies_application None documented_themes demo_session).
  - reflexivity.
  - intros H. vm_compute in H. discriminate H.
Defined.

(** ** The default theme *)

Lemma theme_kept_same (s s' : state) :
  Themes s' = Themes s -> DEFAULT_THEME s' = DEFAULT_THEME s ->
  theme_kept s s'.
Proof. by split. Qed.

Lemma theme_kept_trans (s1 s2 s3 : state) :
  theme_kept s1 s2 -> theme_kept s2 s3 -> theme_kept s1 s3.
Proof. intros [H1 H2] [H3 H4]. split; congruence. Qed.

Lemma theme_kept_get_wxapp (r c : pyval) : keeps theme_kept (get_wxapp r c).
Proof.
  intros s. unfold get_wxapp, bind, get, ret, set_wxapp, emit.
  by destruct (wxapp s), (wx_GetApp s).
Qed.

Lemma theme_kept_PlotDisplay_init w sz th wt kws :
  keeps theme_kept (PlotDisplay_init w sz th wt kws).
Proof.
  apply PlotDisplay_init_keeps;
    first [apply theme_kept_trans | apply theme_kept_get_wxapp
          | by repeat intro].
Qed.

Lemma theme_kept_ImageDisplay_init w sz th wt kws :
  keeps theme_kept (ImageDisplay_init w sz th wt kws).
Proof.
  apply ImageDisplay_init_keeps;
    first [apply theme_kept_trans | apply theme_kept_get_wxapp
          | by repeat intro].
Qed.

Lemma theme_kept_get_plot_window win sz wt th :
  keeps theme_kept (get_plot_window win sz wt th).
Proof.
  intros s. rewrite get_plot_window_cases.
  destruct (int_abs win); [|done].
  destruct (_ !! _); [done|]. apply theme_kept_PlotDisplay_init.
Qed.

Lemma theme_kept_get_image_window win sz wt :
  keeps theme_kept (get_image_window win sz wt).
Proof.
  intros s. rewrite get_image_window_cases.
  destruct (int_abs win); [|done].
  destruct (_ !! _); [done|]. apply theme_kept_ImageDisplay_init.
Qed.

Lemma theme_kept_op (o : op) :
  is_Set_theme o = false -> keeps theme_kept (exec_op o).
Proof.
  intros Hset. destruct (above_factory o) eqn:Habove.
  - apply above_factory_keeps; [| | | | | |exact Habove].
    + by intros s.
    + apply theme_kept_trans.
    + by intros e _ s.
    + apply theme_kept_get_wxapp.
    + apply theme_kept_get_plot_window.
    + apply theme_kept_get_image_window.
  - destruct o; try discriminate; intros s; cbn [exec_op];
      rewrite ?void_state.
    + apply theme_kept_PlotDisplay_init.
    + apply theme_kept_ImageDisplay_init.
    + destruct (objects s !! self) as [d|] eqn:Hd;
        [|by rewrite (onExit_missing _ _ _ _ Hd)].
      by destruct (onExit_spec self o kw s d Hd)
        as (s' & -> & _ & _ & _ & ? & ? & _).
    + destruct (objects s !! self) as [d|] eqn:Hd;
        [|by rewrite (onCursor_missing _ _ _ _ Hd)].
      by destruct (onCursor_spec self kw now s d Hd) as (d' & -> & _).
Qed.

(** X4. Only [set_theme] changes the default theme, and nothing changes
    the theme table.  So in every session from the freshly imported module
    the default theme is ['light'], the initial value, or a key of the table
    that some [set_theme] call accepted. *)
Theorem default_theme_validated :
  (forall (o : op) (s : state),
     is_Set_theme o = false ->
     Themes (exec_op o s).2 = Themes s /\
     DEFAULT_THEME (exec_op o s).2 = DEFAULT_THEME s) /\
  (forall (env : option app) (themes : list string) (ops : list op),
     let s := exec ops (initial_state env themes) in
     Themes s = themes /\
     (DEFAULT_THEME s = "light" \/ DEFAULT_THEME s ∈ themes)).
Proof.
  split; [intros o s Ho; by apply theme_kept_op|].
  intros env themes ops.
  set (P := fun s => Themes s = themes /\
                     (DEFAULT_THEME s = "light" \/ DEFAULT_THEME s ∈ themes)).
  apply (exec_keeps (preserved P)
           ltac:(unfold preserved; auto) ltac:(unfold preserved; auto)
           (fun _ => True) ops); [|by apply Forall_true|by split; [|left]].
  intros o _ s [HT HD]. destruct (is_Set_theme o) eqn:Hset.
  - destruct o; try discriminate. cbn [exec_op]. rewrite set_theme_cases.
    case_bool_decide as Hin; [|done].
    split; [done|]. right. cbn. by rewrite <- HT.
  - destruct (theme_kept_op o Hset s) as [ET ED].
    split; [congruence|]. by rewrite ED.
Qed.

(** The theorem at work: a histogram call leaves the default alone. *)
Lemma default_theme_validated_witness :
  let s := (set_theme "Dark" (initial_state None documented_themes)).2 in
  let o := Hist (VList [VInt 1; VInt 2]) (VInt 10) (VInt 1) (VBool true)
             VNone (VBool true) (VStr "counts") [] ∅ in
  DEFAULT_THEME s = "dark" /\
  Themes (exec_op o s).2 = Themes s /\
  DEFAULT_THEME (exec_op o s).2 = DEFAULT_THEME s.
Proof.
  cbv zeta. split; [reflexivity|].
  by apply (proj1 default_theme_validated).
Defined.

(** ** Handles that are no numbers *)

Lemma kwarg_written (name : string) (v default : pyval)
    (rest : list (string * pyval)) (kws : kwargs) :
  kwarg name default (list_to_map ((name, v) :: rest) ∪ kws) = v.
Proof.
  unfold kwarg, list_to_map. cbn [foldr uncurry fst snd].
  rewrite lookup_union, lookup_insert_eq. by destruct (kws !! name).
Qed.

(** X5. A handle that is None, a string, a tuple, a list or a bound
    method, that is, a value [abs] is not defined on, is rejected and not
    clamped: the factories and every forwarder taking [win] raise TypeError
    and leave the module exactly as it was, with no window made and nothing
    called.  Numbers are another matter: ints and bools are clamped, and
    this statement says nothing about floats. *)
Theorem invalid_handle_rejected (o : op) (w : pyval) (s : state) :
  handle_of o = Some w ->
  has_no_abs w = true ->
  exec_op o s = (Raise TypeError, s).
Proof.
  intros Ho Hno.
  assert (Hw : int_abs w = Raise TypeError) by (by destruct w).
  clear Hno. revert Ho Hw.
  destruct o; intros [= ->] Hw; cbn [exec_op].
  all: try (unfold void, plot, update_trace, plot_setlimits, plot_text,
              plot_arrow, plot_marker, plot_axhline, plot_axvline, hist,
              imshow, bind;
            rewrite ?get_plot_window_cases, ?get_image_window_cases, Hw;
            reflexivity).
  (* newplot *)
  unfold void, newplot, plot_kw, bind, lift. cbv zeta.
  destruct (call_kw _ _) as [kw|e] eqn:Hkw;
    [|by rewrite (call_kw_Raise _ _ _ Hkw)].
  destruct (positional _ kw) as [[]|e] eqn:Hpos;
    [|by rewrite (positional_Raise _ _ _ Hpos)].
  apply call_kw_inv in Hkw as [-> _]. rewrite kwarg_written.
  unfold plot, bind. by rewrite get_plot_window_cases, Hw.
Qed.

(** The theorem at work: [plot_text] on the handle ['1']. *)
Lemma invalid_handle_rejected_witness :
  let s := exec demo_session (initial_state None documented_themes) in
  exec_op (Plot_text (VStr "peak") (VInt 1) (VInt 2) (VStr "1") VNone
             (VStr "left") (VStr "center") (VStr "left") VNone ∅) s =
  (Raise TypeError, s).
Proof.
  cbv zeta. by apply (invalid_handle_rejected _ (VStr "1")).
Defined.

(** ** Closing a window *)

(** X6. The exit callback of a stored display returns, removes at most
    the entry under the display's own handle in the registry of its class,
    and leaves every other entry of both registries alone; after it the
    handle is absent from that registry.  Called a second time it finds the
    handle gone, does not fail, and changes neither registry; the only
    trace of the two calls is [Destroy], twice. *)
Theorem exit_removes_only_its_handle (s : state) (self : loc) (d : display)
    (o o' : pyval) (kw kw' : kwargs) :
  objects s !! self = Some d ->
  exists s1 s2,
    onExit self o kw s = (Ret tt, s1) /\
    onExit self o' kw' s1 = (Ret tt, s2) /\
    (forall j, j <> window d ->
       PLOT_DISPLAYS s1 !! j = PLOT_DISPLAYS s !! j /\
       IMG_DISPLAYS s1 !! j = IMG_DISPLAYS s !! j) /\
    match cls d with
    | PlotDisplay => IMG_DISPLAYS s1 = IMG_DISPLAYS s
    | ImageDisplay => PLOT_DISPLAYS s1 = PLOT_DISPLAYS s
    end /\
    PLOT_DISPLAYS s2 = PLOT_DISPLAYS s1 /\
    IMG_DISPLAYS s2 = IMG_DISPLAYS s1 /\
    objects s2 = objects s /\
    calls s2 =
      calls s ++ [Call self "Destroy" [] ∅; Call self "Destroy" [] ∅] /\
    match cls d with
    | PlotDisplay => PLOT_DISPLAYS s1 !! window d = None
    | ImageDisplay => IMG_DISPLAYS s1 !! window d = None
    end.
Proof.
  intros Hd.
  destruct (onExit_spec self o kw s d Hd)
    as (s1 & H1 & Eo1 & _ & _ & _ & _ & Ec1 & Hreg1).
  assert (Hd1 : objects s1 !! self = Some d) by by rewrite Eo1.
  destruct (onExit_spec self o' kw' s1 d Hd1)
    as (s2 & H2 & Eo2 & _ & _ & _ & _ & Ec2 & Hreg2).
  exists s1, s2. split; [done|]. split; [done|].
  rewrite Ec2, Ec1, <- app_assoc, Eo2, Eo1.
  destruct (cls d); destruct Hreg1 as [R1 R1'], Hreg2 as [R2 R2'];
    rewrite R2, R2', R1, R1'.
  - split; [intros j Hj; by rewrite lookup_delete_ne|].
    split; [done|]. split; [apply delete_id, lookup_delete_eq|].
    split; [done|]. split; [done|]. split; [done|].
    apply lookup_delete_eq.
  - split; [intros j Hj; by rewrite lookup_delete_ne|].
    split; [done|]. split; [done|].
    split; [apply delete_id, lookup_delete_eq|].
    split; [done|]. split; [done|].
    apply lookup_delete_eq.
Qed.

(** The theorem at work: the plot window of [demo_session] closed twice. *)
Lemma exit_removes_only_its_handle_witness :
  let s := exec demo_session (initial_state None documented_themes) in
  PLOT_DISPLAYS s !! 100 = Some 0%nat /\
  exists s1 s2,
    onExit 0%nat VNone ∅ s = (Ret tt, s1) /\
    onExit 0%nat VNone ∅ s1 = (Ret tt, s2) /\
    PLOT_DISPLAYS s1 !! 100 = None /\
    PLOT_DISPLAYS s2 = PLOT_DISPLAYS s1 /\
    IMG_DISPLAYS s2 = IMG_DISPLAYS s1.
Proof.
  cbv zeta.
  destruct (exit_removes_only_its_handle
              (exec demo_session (initial_state None documented_themes))
              0%nat
              {| cls := PlotDisplay; window := 100;
                 cursor_hist := [([VInt 5; VNone], 0%Q)] |}
              VNone VNone ∅ ∅)
    as (s1 & s2 & H1 & H2 & _ & _ & H3 & H4 & _ & _ & H5).
  - vm_compute. reflexivity.
  - split; [vm_compute; reflexivity|]. exists s1, s2. auto 10.
Defined.

(** ** How a new plot window is set up *)

Lemma WxApp_not_Init (pre : list event) :
  forallb is_WxApp pre = true -> List.filter is_Init pre = [].
Proof.
  induction pre as [|e pre IH]; [done|]. cbn.
  intros [He Hpre]%andb_true_iff. destruct e; try done. cbn. auto.
Qed.

Lemma WxApp_not_calls_to (t : string) (pre : list event) :
  forallb is_WxApp pre = true -> calls_to t pre = [].
Proof.
  unfold calls_to. induction pre as [|e pre IH]; [done|]. cbn.
  intros [He Hpre]%andb_true_iff. destruct e; try done. cbn. auto.
Qed.

(** X7. [set_theme] and the factory compose: after [set_theme(t)] has
    accepted [t], a plot window made for a free integer handle is
    initialised once, as a PlotFrame, with the lower-cased [t] as theme
    unless the caller names a theme, with the caller's title or
    ['Plot Window k'] for the clamped handle [k], and with the caller's
    size; [SetSize] is called exactly when a size is given; the window is
    registered under [k]. *)
Theorem new_plot_window_setup (s : state) (t : string) (h : Z)
    (sz wt th : pyval) :
  lower t ∈ Themes s ->
  PLOT_DISPLAYS s !! Z.max 1 (Z.min 100 (Z.abs h)) = None ->
  let k := Z.max 1 (Z.min 100 (Z.abs h)) in
  let s1 := (set_theme t s).2 in
  exists l s2 kw,
    get_plot_window (VInt h) sz wt th s1 = (Ret l, s2) /\
    PLOT_DISPLAYS s2 !! k = Some l /\
    List.filter is_Init (new_calls s1 s2) = [Init "PlotFrame" l kw] /\
    kw !! "theme" = Some (if is_None th then VStr (lower t) else th) /\
    kw !! "title" =
      Some (if is_None wt then VStr ("Plot Window " +:+ pretty k) else wt) /\
    kw !! "size" = Some sz /\
    calls_to "SetSize" (new_calls s1 s2) =
      (if is_None sz then [] else [Call l "SetSize" [sz] ∅]).
Proof.
  intros Ht Hfree k s1. change 100 with MAX_WINDOWS in Hfree, k.
  assert (Hs1 : s1 = (set_DEFAULT_THEME (lower t) s).2).
  { unfold s1. rewrite set_theme_cases.
    by rewrite bool_decide_eq_true_2 by done. }
  assert (Hfree1 : PLOT_DISPLAYS s1 !! k = None) by by rewrite Hs1.
  assert (Hdef : DEFAULT_THEME s1 = lower t) by by rewrite Hs1.
  clearbody s1.
  pose proof (PlotDisplay_init_made k sz th wt s1) as H.
  unfold wp in H. cbv zeta in H.
  destruct (PlotDisplay_init k sz th wt ∅ s1) as [r s2] eqn:Hinit.
  cbn [fst snd] in H.
  destruct H as (-> & _ & _ & _ & _ & _ & _ & _ & Ep & pre & Hpre & Ec).
  rewrite bool_decide_eq_true_2 in Ep by done.
  eexists _, s2, _. split.
  { rewrite get_plot_window_cases. cbn [int_abs]. fold k.
    by rewrite Hfree1. }
  split; [by rewrite Ep, lookup_insert_eq|].
  rewrite (new_calls_app _ _ _ Ec), Hdef.
  unfold calls_to. rewrite !List.filter_app.
  rewrite (WxApp_not_Init _ Hpre).
  pose proof (WxApp_not_calls_to "SetSize" _ Hpre) as Hno.
  unfold calls_to in Hno. rewrite Hno.
  split; [by destruct (is_None sz)|].
  unfold list_to_map. cbn [foldr uncurry fst snd].
  split; [|split; [|split]].
  - apply lookup_union_Some_l.
    rewrite !lookup_insert_ne by discriminate. apply lookup_insert_eq.
  - apply lookup_union_Some_l.
    rewrite !lookup_insert_ne by discriminate. apply lookup_insert_eq.
  - apply lookup_union_Some_l.
    rewrite !lookup_insert_ne by discriminate. apply lookup_insert_eq.
  - by destruct (is_None sz).
Qed.

(** The theorem at work: ['Seaborn'] chosen, then plot window 7 asked for
    with a size. *)
Lemma new_plot_window_setup_witness :
  let s := initial_state None documented_themes in
  let s1 := (set_theme "Seaborn" s).2 in
  let sz := VTuple [VInt 600; VInt 400] in
  exists l s2 kw,
    get_plot_window (VInt (-7)) sz VNone VNone s1 = (Ret l, s2) /\
    PLOT_DISPLAYS s2 !! 7 = Some l /\
    List.filter is_Init (new_calls s1 s2) = [Init "PlotFrame" l kw] /\
    kw !! "theme" = Some (VStr "seaborn") /\
    kw !! "title" = Some (VStr "Plot Window 7") /\
    kw !! "size" = Some sz /\
    calls_to "SetSize" (new_calls s1 s2) = [Call l "SetSize" [sz] ∅].
Proof.
  cbv zeta.
  apply (new_plot_window_setup (initial_state None documented_themes)
           "Seaborn" (-7) (VTuple [VInt 600; VInt 400]) VNone VNone).
  - apply (bool_decide_unpack _). vm_compute. exact I.
  - reflexivity.
Defined.

(** ** Options that repeat a keyword of the forwarder *)

Lemma call_kw_clash (explicit : list (string * pyval)) (kws : kwargs)
    (k : string) (v0 : pyval) :
  In (k, v0) explicit -> is_Some (kws !! k) ->
  call_kw explicit kws = Raise TypeError.
Proof.
  intros Hin [v Hv]. unfold call_kw.
  destruct (forallb _ explicit) eqn:E; [|done].
  rewrite forallb_forall in E. specialize (E _ Hin).
  apply bool_decide_eq_true_1 in E. cbn in E. congruence.
Qed.

(** X8. [plot_marker] passes its [size] on as [markersize], and
    [update_trace] passes [draw=True]: an option of that name given by the
    caller makes the delegated call a TypeError (keyword given twice).  The
    forwarder then raises without drawing anything, although the window has
    by then been made or found, registered and raised. *)
Theorem repeated_keyword_rejected :
  (forall (h : Z) (x y marker size color label : pyval) (kws : kwargs)
          (s : state),
     is_Some (kws !! "markersize") ->
     let r := plot_marker x y marker size color label (VInt h) kws s in
     r.1 = Raise TypeError /\
     draws (new_calls s r.2) = [] /\
     exists l, PLOT_DISPLAYS r.2 !! Z.max 1 (Z.min 100 (Z.abs h)) = Some l /\
               last (calls r.2) = Some (Call l "Raise" [] ∅)) /\
  (forall (h n : Z) (x y : pyval) (kws : kwargs) (s : state),
     is_Some (kws !! "draw") ->
     let r := update_trace x y (VInt n) (VInt h) kws s in
     r.1 = Raise TypeError /\
     draws (new_calls s r.2) = [] /\
     exists l, PLOT_DISPLAYS r.2 !! Z.max 1 (Z.min 100 (Z.abs h)) = Some l /\
               last (calls r.2) = Some (Call l "Raise" [] ∅)).
Proof.
  split.
  - intros h x y marker size color label kws s Hk r.
    destruct (wp_elim _ _ _ (get_plot_window_spec h VNone VNone VNone s))
      as (o & s1 & Heq & l & -> & Hl & _ & _ & _ & (evs & Hc & Hsetup) & _).
    assert (Hr : r = (Raise TypeError, (emit (Call l "Raise" [] ∅) s1).2)).
    { unfold r, plot_marker, bind. rewrite Heq. unfold lift. cbn [fst snd].
      by rewrite (call_kw_clash _ kws "markersize" size) by (cbn; auto). }
    rewrite Hr. cbn [fst snd emit PLOT_DISPLAYS calls].
    split; [done|]. split.
    + etransitivity;
        [eapply (draws_tail _ _ _ _ _ Hc Hsetup); reflexivity|reflexivity].
    + exists l. split; [done|]. by rewrite last_snoc.
  - intros h n x y kws s Hk r.
    destruct (wp_elim _ _ _ (get_plot_window_spec h VNone VNone VNone s))
      as (o & s1 & Heq & l & -> & Hl & _ & _ & _ & (evs & Hc & Hsetup) & _).
    assert (Hr : r = (Raise TypeError, (emit (Call l "Raise" [] ∅) s1).2)).
    { unfold r, update_trace, bind. rewrite Heq. unfold lift.
      cbn [fst snd minus_one].
      by rewrite (call_kw_clash _ kws "draw" (VBool true)) by (cbn; auto). }
    rewrite Hr. cbn [fst snd emit PLOT_DISPLAYS calls].
    split; [done|]. split.
    + etransitivity;
        [eapply (draws_tail _ _ _ _ _ Hc Hsetup); reflexivity|reflexivity].
    + exists l. split; [done|]. by rewrite last_snoc.
Qed.

(** The theorem at work: a marker with [markersize=3] on a fresh module. *)
Lemma repeated_keyword_rejected_witness :
  let r := plot_marker (VInt 1) (VInt 2) (VStr "o") (VInt 4) (VStr "black")
             (VStr "_nolegend_") (VInt 1) (<["markersize" := VInt 3]> ∅)
             (initial_state None documented_themes) in
  r.1 = Raise TypeError /\
  draws (new_calls (initial_state None documented_themes) r.2) = [] /\
  exists l, PLOT_DISPLAYS r.2 !! 1 = Some l /\
            last (calls r.2) = Some (Call l "Raise" [] ∅).
Proof.
  cbv zeta.
  apply (proj1 repeated_keyword_rejected 1 (VInt 1) (VInt 2) (VStr "o")
           (VInt 4) (VStr "black") (VStr "_nolegend_")
           (<["markersize" := VInt 3]> ∅)
           (initial_state None documented_themes)).
  by exists (VInt 3).
Defined.

(** ** What [hist] and [update_trace] delegate *)

Lemma canvas_draws_tail (s s1 s' : state) (evs tail : list event) :
  calls s1 = calls s ++ evs -> forallb is_setup evs = true ->
  calls s' = calls s1 ++ tail ->
  canvas_draws (new_calls s s') = canvas_draws tail.
Proof.
  intros H1 Hsetup H2. rewrite H1, <- app_assoc in H2.
  rewrite (new_calls_app _ _ _ H2), canvas_draws_app.
  by rewrite (setup_no_canvas_draws _ Hsetup).
Qed.

Lemma setup_no_calls_to (t : string) (evs : list event) :
  t ∉ ["SetSize"; "Show"; "Raise"] ->
  forallb is_setup evs = true -> calls_to t evs = [].
Proof.
  intros Ht. unfold calls_to.
  induction evs as [|e evs IH]; [done|]. cbn.
  intros [He Hevs]%andb_true_iff. rewrite (IH Hevs).
  destruct e as [| |l t' args kw| |]; try done. cbn in He.
  apply bool_decide_eq_true_1 in He.
  destruct (String.eqb_spec t' t) as [->|]; [done|done].
Qed.

Lemma calls_to_tail (t : string) (s s1 s' : state) (evs tail : list event) :
  t ∉ ["SetSize"; "Show"; "Raise"] ->
  calls s1 = calls s ++ evs -> forallb is_setup evs = true ->
  calls s' = calls s1 ++ tail ->
  calls_to t (new_calls s s') = calls_to t tail.
Proof.
  intros Ht H1 Hsetup H2. rewrite H1, <- app_assoc in H2.
  rewrite (new_calls_app _ _ _ H2). unfold calls_to.
  rewrite List.filter_app.
  pose proof (setup_no_calls_to t evs Ht Hsetup) as H. unfold calls_to in H.
  by rewrite H.
Qed.

(** X9. [hist] on an integer handle, with options that do not name
    [bins]: the histogram call gets the data, [bins] and every option; the
    value returned is the one that call returned; the axes are cleared
    first exactly when [new] is true, the title is set exactly when one is
    given, and the canvas is drawn once, whatever [force_draw] says.  The
    order is fixed: after the factory has made or found the window, it is
    raised, then the axes are cleared (when asked), then comes the
    histogram, then the title (when given), and the draw of the canvas
    comes last. *)
Theorem hist_draws_once (h : Z) (x bins new sz force_draw title : pyval)
    (args : list pyval) (kws : kwargs) (s : state) :
  kws !! "bins" = None ->
  exists out s' l kw,
    hist x bins (VInt h) new sz force_draw title args kws s = (Ret out, s') /\
    PLOT_DISPLAYS s' !! Z.max 1 (Z.min 100 (Z.abs h)) = Some l /\
    calls s' !! out = Some (Call l "panel.axes.hist" [x] kw) /\
    kw !! "bins" = Some bins /\
    (forall k v, kws !! k = Some v -> kw !! k = Some v) /\
    canvas_draws (new_calls s s') = 1%nat /\
    calls_to "panel.axes.clear" (new_calls s s') =
      (if truthy new then [Call l "panel.axes.clear" [] ∅] else []) /\
    calls_to "panel.set_title" (new_calls s s') =
      (if is_None title then [] else [Call l "panel.set_title" [title] ∅]) /\
    exists s1,
      get_plot_window (VInt h) sz VNone VNone s = (Ret l, s1) /\
      calls s' =
        calls s1 ++
        [Call l "Raise" [] ∅] ++
        (if truthy new then [Call l "panel.axes.clear" [] ∅] else []) ++
        [Call l "panel.axes.hist" [x] kw] ++
        (if is_None title then [] else [Call l "panel.set_title" [title] ∅]) ++
        [Call l "panel.canvas.draw" [] ∅].
Proof.
  intros Hbins.
  destruct (wp_elim _ _ _ (get_plot_window_spec h sz VNone VNone s))
    as (o & s1 & Heq & l & -> & Hl & _ & _ & _ & (evs & Hc & Hsetup) & _).
  assert (Hkw : call_kw [("bins", bins)] kws =
                Ret (list_to_map [("bins", bins)] ∪ kws)).
  { apply call_kw_Ret. by intros k v [[= <- <-]|[]]. }
  assert (Hnot1 : "panel.axes.clear" ∉ ["SetSize"; "Show"; "Raise"])
    by (apply (bool_decide_eq_false_1 _); reflexivity).
  assert (Hnot2 : "panel.set_title" ∉ ["SetSize"; "Show"; "Raise"])
    by (apply (bool_decide_eq_false_1 _); reflexivity).
  unfold hist, bind. rewrite Heq.
  unfold emit, when, lift, get, ret. cbn [fst snd]. rewrite Hkw.
  destruct (truthy new), (is_None title); cbn [fst snd negb calls].
  all: eexists _, _, l, _; split; [reflexivity|].
  all: cbn [PLOT_DISPLAYS calls].
  all: split; [exact Hl|].
  all: split;
    [rewrite ?lookup_app_l
       by (rewrite ?length_app; cbn [List.length]; lia);
     apply lookup_new|].
  all: split;
    [apply lookup_union_Some_l; unfold list_to_map;
     cbn [foldr uncurry fst snd]; apply lookup_insert_eq|].
  all: split; [intros k v Hk; by eapply call_kw_passes|].
  all: split;
    [etransitivity;
     [eapply (canvas_draws_tail _ _ _ _ _ Hc Hsetup);
      cbn [calls]; rewrite <- ?app_assoc; reflexivity|reflexivity]|].
  all: split;
    [etransitivity;
     [eapply (calls_to_tail _ _ _ _ _ _ Hnot1 Hc Hsetup);
      cbn [calls]; rewrite <- ?app_assoc; reflexivity|reflexivity]
    |].
  all: split;
    [etransitivity;
     [eapply (calls_to_tail _ _ _ _ _ _ Hnot2 Hc Hsetup);
      cbn [calls]; rewrite <- ?app_assoc; reflexivity|reflexivity]
    |].
  all: exists s1; split; [reflexivity|].
  all: cbn [calls List.app]; by rewrite <- ?app_assoc.
Qed.

(** The theorem at work: a histogram asked not to draw. *)
Lemma hist_draws_once_witness :
  let s := initial_state None documented_themes in
  exists out s' l kw,
    hist (VList [VInt 1; VInt 2; VInt 2]) (VInt 5) (VInt 1) (VBool true) VNone
      (VBool false) VNone [] (<["color" := VStr "red"]> ∅) s = (Ret out, s') /\
    calls s' !! out =
      Some (Call l "panel.axes.hist" [VList [VInt 1; VInt 2; VInt 2]] kw) /\
    kw !! "bins" = Some (VInt 5) /\
    canvas_draws (new_calls s s') = 1%nat /\
    exists s1,
      calls s' =
        calls s1 ++
        [Call l "Raise" [] ∅; Call l "panel.axes.clear" [] ∅;
         Call l "panel.axes.hist" [VList [VInt 1; VInt 2; VInt 2]] kw;
         Call l "panel.canvas.draw" [] ∅].
Proof.
  cbv zeta.
  destruct (hist_draws_once 1 (VList [VInt 1; VInt 2; VInt 2]) (VInt 5)
              (VBool true) VNone (VBool false) VNone []
              (<["color" := VStr "red"]> ∅)
              (initial_state None documented_themes))
    as (out & s' & l & kw & H1 & _ & H2 & H3 & _ & H4 & _ & _ & s1 & _ & H5).
  - vm_compute. reflexivity.
  - exists out, s', l, kw. do 4 (split; [done|]). by exists s1.
Defined.

(** X10. [update_trace] counts traces from 1 and the panel from 0: on an
    integer handle and trace number [n], with options that do not name
    [draw], the one drawing call is [update_line] on trace [n - 1] with the
    data, [draw=True] and every option.  A trace number that is no number
    makes the call a TypeError, raised after the window has been made and
    raised, with nothing drawn. *)
Theorem update_trace_counts_from_one :
  (forall (h n : Z) (x y : pyval) (kws : kwargs) (s : state),
     kws !! "draw" = None ->
     exists l s' kw,
       update_trace x y (VInt n) (VInt h) kws s = (Ret tt, s') /\
       PLOT_DISPLAYS s' !! Z.max 1 (Z.min 100 (Z.abs h)) = Some l /\
       draws (new_calls s s') =
         [Call l "panel.update_line" [VInt (n - 1); x; y] kw] /\
       kw !! "draw" = Some (VBool true) /\
       (forall k v, kws !! k = Some v -> kw !! k = Some v)) /\
  (forall (h : Z) (trace x y : pyval) (kws : kwargs) (s : state),
     minus_one trace = Raise TypeError ->
     let r := update_trace x y trace (VInt h) kws s in
     r.1 = Raise TypeError /\
     draws (new_calls s r.2) = [] /\
     exists l, last (calls r.2) = Some (Call l "Raise" [] ∅)).
Proof.
  split.
  - intros h n x y kws s Hdraw.
    destruct (wp_elim _ _ _ (get_plot_window_spec h VNone VNone VNone s))
      as (o & s1 & Heq & l & -> & Hl & _ & _ & _ & (evs & Hc & Hsetup) & _).
    assert (Hkw : call_kw [("draw", VBool true)] kws =
                  Ret (list_to_map [("draw", VBool true)] ∪ kws)).
    { apply call_kw_Ret. by intros k v [[= <- <-]|[]]. }
    unfold update_trace, bind. rewrite Heq.
    unfold emit, lift. cbn [fst snd minus_one]. rewrite Hkw.
    eexists l, _, _. split; [reflexivity|]. cbn [PLOT_DISPLAYS].
    split; [exact Hl|]. split; [delegated Hc Hsetup|].
    split; [|intros k v Hk; by eapply call_kw_passes].
    apply lookup_union_Some_l. unfold list_to_map.
    cbn [foldr uncurry fst snd]. apply lookup_insert_eq.
  - intros h trace x y kws s Htrace r.
    destruct (wp_elim _ _ _ (get_plot_window_spec h VNone VNone VNone s))
      as (o & s1 & Heq & l & -> & Hl & _ & _ & _ & (evs & Hc & Hsetup) & _).
    assert (Hr : r = (Raise TypeError, (emit (Call l "Raise" [] ∅) s1).2)).
    { unfold r, update_trace, bind. rewrite Heq. unfold lift.
      cbn [fst snd]. by rewrite Htrace. }
    rewrite Hr. cbn [fst snd emit calls]. split; [done|]. split.
    + etransitivity;
        [eapply (draws_tail _ _ _ _ _ Hc Hsetup); reflexivity|reflexivity].
    + exists l. by rewrite last_snoc.
Qed.

(** The theorem at work: the first trace of window 2 is line 0. *)
Lemma update_trace_counts_from_one_witness :
  let s := initial_state None documented_themes in
  exists l s' kw,
    update_trace (VList [VInt 0]) (VList [VInt 9]) (VInt 1) (VInt 2) ∅ s =
      (Ret tt, s') /\
    draws (new_calls s s') =
      [Call l "panel.update_line" [VInt 0; VList [VInt 0]; VList [VInt 9]] kw] /\
    kw !! "draw" = Some (VBool true).
Proof.
  cbv zeta.
  destruct (proj1 update_trace_counts_from_one 2 1 (VList [VInt 0])
              (VList [VInt 9]) ∅ (initial_state None documented_themes))
    as (l & s' & kw & H1 & _ & H2 & H3 & _).
  - reflexivity.
  - exists l, s', kw. auto.
Defined.

(** ** One image per open window *)

Lemma imshow_after_factory (map x y cm win wt sz : pyval) (kws : kwargs)
    (s s1 : state) (l : loc) :
  get_image_window win sz wt s = (Ret l, s1) ->
  catch_all ["x"; "y"; "colormap"] kws ->
  imshow map x y cm win wt sz kws s =
  (Ret l,
   (emit (Call l "display" [map]
            (list_to_map [("x", x); ("y", y); ("colormap", cm)] ∪ kws))
      s1).2).
Proof.
  intros Heq Hk. unfold imshow, bind. rewrite Heq. unfold lift.
  cbn [fst snd]. rewrite call_kw_Ret; [done|].
  intros k v [[= <- <-]|[[= <- <-]|[[= <- <-]|[]]]];
    apply (catch_all_lookup _ _ _ Hk); set_solver.
Qed.

(** X11. [imshow] can show one image per open window.  On a free integer
    handle it makes the window and displays the map with the options.  A
    second [imshow] on that handle raises NameError, displays nothing and
    changes nothing, because the factory fails on a registered handle.
    Once the window has been closed, [imshow] on the handle works again, on
    a new window. *)
Theorem imshow_once_per_open_window (h : Z)
    (m1 x1 y1 cm1 wt1 sz1 m2 x2 y2 cm2 wt2 sz2 o : pyval)
    (kws1 kws2 kw : kwargs) (s : state) :
  IMG_DISPLAYS s !! Z.max 1 (Z.min 100 (Z.abs h)) = None ->
  catch_all ["x"; "y"; "colormap"] kws1 ->
  catch_all ["x"; "y"; "colormap"] kws2 ->
  exists l s1 s2 l' s3 kw1 kw2,
    imshow m1 x1 y1 cm1 (VInt h) wt1 sz1 kws1 s = (Ret l, s1) /\
    draws (new_calls s s1) = [Call l "display" [m1] kw1] /\
    (forall k v, kws1 !! k = Some v -> kw1 !! k = Some v) /\
    imshow m2 x2 y2 cm2 (VInt h) wt2 sz2 kws2 s1 = (Raise NameError, s1) /\
    onExit l o kw s1 = (Ret tt, s2) /\
    imshow m2 x2 y2 cm2 (VInt h) wt2 sz2 kws2 s2 = (Ret l', s3) /\
    l' <> l /\
    draws (new_calls s2 s3) = [Call l' "display" [m2] kw2].
Proof.
  intros Hfree Hk1 Hk2. change 100 with MAX_WINDOWS in Hfree.
  (* the first image *)
  destruct (wp_elim _ _ _ (get_image_window_spec h sz1 wt1 s))
    as (r & t1 & Hw1 & Hcase). rewrite Hfree in Hcase.
  destruct Hcase as (-> & Eo1 & Ei1 & _ & _ & _ & (evs1 & Hc1 & Hs1)).
  pose proof (imshow_after_factory m1 x1 y1 cm1 _ wt1 sz1 kws1 s t1 _ Hw1 Hk1)
    as Him1.
  set (s1 := (emit _ t1).2) in Him1.
  (* the second one *)
  assert (Hreg : IMG_DISPLAYS s1 !! clamp h = Some (List.length (objects s)))
    by (cbn; by rewrite Ei1, lookup_insert_eq).
  assert (Him2 : imshow m2 x2 y2 cm2 (VInt h) wt2 sz2 kws2 s1 =
                 (Raise NameError, s1)).
  { unfold imshow, bind.
    by rewrite (get_image_window_registered h sz2 wt2 s1 _ Hreg). }
  (* the window is closed *)
  assert (Hd : objects s1 !! List.length (objects s) =
               Some {| cls := ImageDisplay; window := clamp h;
                       cursor_hist := [] |})
    by (cbn; rewrite Eo1; apply lookup_new).
  destruct (onExit_spec _ o kw s1 _ Hd)
    as (s2 & Hexit & Eo2 & _ & _ & _ & _ & _ & Hreg2).
  cbn [cls window] in Hreg2. destruct Hreg2 as [Ei2 _].
  (* and the third image *)
  destruct (wp_elim _ _ _ (get_image_window_spec h sz2 wt2 s2))
    as (r & t3 & Hw3 & Hcase). rewrite Ei2, lookup_delete_eq in Hcase.
  destruct Hcase as (-> & _ & _ & _ & _ & _ & (evs3 & Hc3 & Hs3)).
  pose proof (imshow_after_factory m2 x2 y2 cm2 _ wt2 sz2 kws2 s2 t3 _ Hw3 Hk2)
    as Him3.
  set (s3 := (emit _ t3).2) in Him3.
  exists (List.length (objects s)), s1, s2, (List.length (objects s2)), s3.
  eexists _, _.
  split; [exact Him1|]. split; [subst s1; delegated Hc1 Hs1|].
  split.
  { intros k v Hk. apply lookup_union_Some_raw. right. split; [|done].
    apply not_elem_of_list_to_map_1. cbn.
    intros Hin. apply (catch_all_lookup _ _ k) in Hk1; [congruence|done]. }
  split; [exact Him2|]. split; [exact Hexit|]. split; [exact Him3|].
  split; [|subst s3; delegated Hc3 Hs3].
  rewrite Eo2. cbn [objects emit snd s1]. rewrite Eo1, length_app. cbn. lia.
Qed.

(** The theorem at work: two images for image window 1. *)
Lemma imshow_once_per_open_window_witness :
  let s := initial_state None documented_themes in
  let m := VList [VList [VInt 0; VInt 1]] in
  exists l s1,
    imshow m VNone VNone VNone (VInt 1) VNone VNone ∅ s = (Ret l, s1) /\
    imshow m VNone VNone VNone (VInt 1) VNone VNone ∅ s1 =
      (Raise NameError, s1).
Proof.
  cbv zeta.
  destruct (imshow_once_per_open_window 1
              (VList [VList [VInt 0; VInt 1]]) VNone VNone VNone VNone VNone
              (VList [VList [VInt 0; VInt 1]]) VNone VNone VNone VNone VNone
              VNone ∅ ∅ ∅ (initial_state None documented_themes))
    as (l & s1 & _ & _ & _ & _ & _ & H1 & _ & _ & H2 & _).
  - reflexivity.
  - unfold catch_all. repeat constructor.
  - unfold catch_all. repeat constructor.
  - exists l, s1. auto.
Defined.

(** ** The exit hook *)

(** X12. The hook registered to run at exit, after any session from the
    freshly imported module: it returns, and the last call it makes is the
    main loop of the shared application, the one every [get_wxapp] call of
    the session returned.  It constructs that application only if the
    session never needed one and none was running, and it touches neither
    the registries nor the displays. *)
Theorem mainloop_on_shared_application (env : option app)
    (themes : list string) (ops : list op) :
  let s := exec ops (initial_state env themes) in
  exists s',
    __wxmainloop__ s = (Ret tt, s') /\
    last (calls s') = Some (MainLoop (the_app env)) /\
    wxapp s' = Some (the_app env) /\
    count_WxApp (calls s') =
      match env with Some _ => 0%nat | None => 1%nat end /\
    PLOT_DISPLAYS s' = PLOT_DISPLAYS s /\
    IMG_DISPLAYS s' = IMG_DISPLAYS s /\
    objects s' = objects s.
Proof.
  intros s.
  assert (H0 : app_once env (initial_state env themes))
    by (split; [done|]; by left).
  assert (Hs : app_once env s) by by apply (app_kept_exec env ops).
  destruct (get_wxapp_once env (VBool false) (VBool true) s Hs)
    as (Hr & Hw & Ho).
  destruct (get_wxapp_frame (VBool false) (VBool true) s) as (Ep & Ei & Eo).
  destruct (get_wxapp (VBool false) (VBool true) s) as [r s1] eqn:Heq.
  cbn [fst snd] in *. subst r.
  eexists. split.
  { unfold __wxmainloop__, bind. rewrite Heq. reflexivity. }
  cbn [calls wxapp PLOT_DISPLAYS IMG_DISPLAYS objects].
  split; [by rewrite last_snoc|]. split; [done|].
  split; [|done].
  rewrite count_WxApp_snoc, Nat.add_0_r.
  destruct Ho as [_ [[Hn _]|[_ Hc]]]; [congruence|done].
Qed.

(** ** Displays made directly *)

(** X13. A [PlotDisplay] made directly for a handle that is registered is
    stored but not registered: the registry keeps the window it had.  The
    exit callback of the newcomer nevertheless removes the entry under the
    handle, so the first window, still in the store and never destroyed, is
    no longer found by its handle. *)
Theorem duplicate_display_unregisters_original (s : state) (w : Z)
    (l : loc) (d : display) (sz th wt o : pyval) (kw : kwargs) :
  PLOT_DISPLAYS s !! w = Some l ->
  objects s !! l = Some d ->
  exists l' s1 s2,
    PlotDisplay_init w sz th wt ∅ s = (Ret l', s1) /\
    l' <> l /\
    PLOT_DISPLAYS s1 = PLOT_DISPLAYS s /\
    onExit l' o kw s1 = (Ret tt, s2) /\
    PLOT_DISPLAYS s2 !! w = None /\
    objects s2 !! l = Some d /\
    calls_to "Destroy" (new_calls s s2) = [Call l' "Destroy" [] ∅].
Proof.
  intros Hreg Hd.
  pose proof (PlotDisplay_init_made w sz th wt s) as H.
  unfold wp in H. cbv zeta in H.
  destruct (PlotDisplay_init w sz th wt ∅ s) as [r s1] eqn:Hinit.
  cbn [fst snd] in H.
  destruct H as (-> & _ & _ & _ & _ & _ & _ & Eo & Ep & pre & Hpre & Ec).
  rewrite bool_decide_eq_false_2 in Ep by (by rewrite Hreg).
  assert (Hnew : objects s1 !! List.length (objects s) =
                 Some {| cls := PlotDisplay; window := w;
                         cursor_hist := [] |})
    by (rewrite Eo; apply lookup_new).
  destruct (onExit_spec _ o kw s1 _ Hnew)
    as (s2 & Hexit & Eo2 & _ & _ & _ & _ & Ec2 & Hreg2).
  cbn [cls window] in Hreg2. destruct Hreg2 as [Ep2 _].
  exists (List.length (objects s)), s1, s2.
  split; [done|]. split.
  { apply lookup_lt_Some in Hd. lia. }
  split; [done|]. split; [done|].
  split; [by rewrite Ep2, lookup_delete_eq|].
  split; [rewrite Eo2, Eo; by apply lookup_app_l_Some|].
  rewrite Ec in Ec2. rewrite <- !app_assoc in Ec2.
  rewrite (new_calls_app _ _ _ Ec2). unfold calls_to.
  rewrite !List.filter_app.
  pose proof (WxApp_not_calls_to "Destroy" _ Hpre) as Hno.
  unfold calls_to in Hno. rewrite Hno.
  by destruct (is_None sz).
Qed.

(** The theorem at work: a second display for plot window 100 of
    [demo_session]. *)
Lemma duplicate_display_unregisters_original_witness :
  let s := exec demo_session (initial_state None documented_themes) in
  exists l' s1 s2,
    PlotDisplay_init 100 VNone VNone VNone ∅ s = (Ret l', s1) /\
    PLOT_DISPLAYS s1 !! 100 = Some 0%nat /\
    onExit l' VNone ∅ s1 = (Ret tt, s2) /\
    PLOT_DISPLAYS s2 !! 100 = None.
Proof.
  cbv zeta.
  destruct (duplicate_display_unregisters_original
              (exec demo_session (initial_state None documented_themes))
              100 0%nat
              {| cls := PlotDisplay; window := 100;
                 cursor_hist := [([VInt 5; VNone], 0%Q)] |}
              VNone VNone VNone VNone ∅)
    as (l' & s1 & s2 & H1 & _ & H2 & H3 & H4 & _).
  - vm_compute. reflexivity.
  - vm_compute. reflexivity.
  - exists l', s1, s2. rewrite H2. repeat split; done.
Defined.

(** ** The cursor history as a whole *)

Lemma cursor_push_take (e : cursor_entry) (hist : list cursor_entry) :
  (if Nat.ltb MAX_CURSHIST (List.length (e :: hist))
   then take MAX_CURSHIST (e :: hist) else e :: hist) =
  take MAX_CURSHIST (e :: hist).
Proof.
  destruct (Nat.ltb_spec MAX_CURSHIST (List.length (e :: hist))); [done|].
  by rewrite take_ge.
Qed.

Lemma onCursor_exact (self : loc) (kw : kwargs) (now : timestamp)
    (s : state) (d : display) :
  objects s !! self = Some d ->
  objects (onCursor self kw now s).2 !! self =
    Some {| cls := cls d; window := window d;
            cursor_hist :=
              take MAX_CURSHIST
                (cursor_entry_of (cls d) kw now :: cursor_hist d) |}.
Proof.
  intros Hd.
  unfold onCursor, PlotDisplay_onCursor, ImageDisplay_onCursor,
    bind, getobj, set_objects, cursor_entry_of.
  rewrite Hd. destruct (cls d) eqn:Hc; rewrite Hd; cbv zeta;
    rewrite cursor_push_take; cbn [snd objects];
    rewrite list_lookup_insert_eq by (by eapply lookup_lt_Some);
    by rewrite Hc.
Qed.

Lemma take_app_take (n : nat) (l k : list cursor_entry) :
  take n (l ++ take n k) = take n (l ++ k).
Proof.
  rewrite !take_app, take_take. do 2 f_equal. lia.
Qed.

(** X14. The history is the run of events, newest first, cut at 100.
    Take a stored display whose history holds at most 100 entries (as the
    history of every display in a session does).  After any run of cursor events on it, its history
    is the entries of these events in reverse order, followed by what the
    history held before, truncated to the first 100: an entry is dropped
    exactly when 100 newer ones have come in.  Class and handle of the
    display are untouched. *)
Theorem cursor_history_is_recent_events (self : loc)
    (evs : list (kwargs * timestamp)) (s : state) (d : display) :
  objects s !! self = Some d ->
  (List.length (cursor_hist d) <= 100)%nat ->
  objects (exec (cursor_events self evs) s) !! self =
    Some {| cls := cls d; window := window d;
            cursor_hist :=
              take 100
                (rev (List.map (fun e => cursor_entry_of (cls d) e.1 e.2) evs)
                 ++ cursor_hist d) |}.
Proof.
  change 100%nat with MAX_CURSHIST. unfold exec, cursor_events.
  revert s d. induction evs as [|[kw now] evs IH]; intros s d Hd Hlen.
  - cbn. rewrite Hd, take_ge by done. by destruct d.
  - cbn [List.map foldl exec_op fst snd].
    pose proof (onCursor_exact self kw now s d Hd) as H1.
    rewrite (IH _ _ H1); cbn [cls window cursor_hist].
    + do 2 f_equal. rewrite take_app_take.
      cbn [rev]. by rewrite <- app_assoc.
    + rewrite length_take. lia.
Qed.

Lemma cursor_history_is_recent_events_witness :
  let s := exec [Get_plot_window (VInt 1) VNone VNone VNone]
             (initial_state None documented_themes) in
  let evs :=
    [(<["x" := VInt 1]> (<["y" := VInt 2]> ∅), 10%Q);
     (<["x" := VInt 3]> (<["y" := VInt 4]> ∅), 11%Q)] in
  exists d,
    objects s !! 0%nat = Some d /\
    objects (exec (cursor_events 0%nat evs) s) !! 0%nat =
      Some {| cls := cls d; window := window d;
              cursor_hist :=
                take 100
                  (rev (List.map
                          (fun e => cursor_entry_of (cls d) e.1 e.2) evs)
                   ++ cursor_hist d) |}.
Proof.
  cbv zeta. eexists. split; [reflexivity|].
  apply cursor_history_is_recent_events; [reflexivity|].
  vm_compute. lia.
Defined.
